(** * weaponsdetection: the webcam detector page (src/app.js)

    A shallow embedding of the page script: the annotator ([filtered],
    [drawBoxes]) as pure functions over binary64 numbers and strings, and
    the capture/render loop ([startBtn], [stopBtn], [loop]) as a transition
    system over the script's globals and the browser's pending work
    (promises awaited by the handlers, animation-frame callbacks). *)

From Stdlib Require Import ZArith Floats Ascii DecimalString Lia.
From stdpp Require Import gmap strings list.

(** ** The JavaScript number operations the script uses *)

Module JS.

Local Open Scope Z_scope.

(** A Number is a binary64 float; [Prim2SF] gives its exact value
    [(-1)^s * m * 2^e]. *)
Definition is_finite (x : float) : bool :=
  match Prim2SF x with
  | S754_zero _ | S754_finite _ _ _ => true
  | S754_infinity _ | S754_nan => false
  end.

(** ToBoolean on a Number: [+0], [-0] and [NaN] are falsy. *)
Definition truthy (x : float) : bool :=
  negb (PrimFloat.is_zero x || PrimFloat.is_nan x).

(** [Math.max(a, b)]: NaN if either is NaN, [+0] is larger than [-0]. *)
Definition Math_max (a b : float) : float :=
  match PrimFloat.compare a b with
  | FLt => b
  | FGt => a
  | FEq => if PrimFloat.get_sign a then b else a
  | FNotComparable => PrimFloat.nan
  end.

(** Decimal digits of a natural number, ["0"] for zero. *)
Definition digits (n : N) : string :=
  NilZero.string_of_uint (N.to_uint n).

Definition is_digit (c : ascii) : bool :=
  let k := N_of_ascii c in ((48 <=? k) && (k <=? 57))%N.

Fixpoint all_digits (s : string) : bool :=
  match s with
  | EmptyString => true
  | String c s' => is_digit c && all_digits s'
  end.

Fixpoint zeros (k : nat) : string :=
  match k with
  | O => EmptyString
  | S k' => String "0" (zeros k')
  end.

(** The integer [n] for which [n / 10^f - x] is closest to zero, the
    larger one on a tie, for [x = m * 2^e >= 0]. *)
Definition nearest_scaled (f : nat) (m : positive) (e : Z) : N :=
  let y := Z.pos m * 10 ^ Z.of_nat f in
  if 0 <=? e then Z.to_N (y * 2 ^ e)
  else Z.to_N ((2 * y + 2 ^ (- e)) / 2 ^ (- e + 1)).

(** Steps 11.b to 11.e of Number.prototype.toFixed: pad [m] to more than
    [f] digits and put the point before the last [f]. *)
Definition place_point (f : nat) (m : string) : string :=
  match f with
  | O => m
  | _ =>
      let k := String.length m in
      let m' := if (k <=? f)%nat then zeros (f + 1 - k) +:+ m else m in
      let k' := String.length m' in
      String.substring 0 (k' - f) m' +:+ "." +:+ String.substring (k' - f) f m'
  end.

(** [x.toFixed(f)]. [big] stands for Number::toString on magnitudes of
    at least 10^21, which the script never reaches and which is not
    modelled here. *)
Definition toFixed (big : float -> string) (f : nat) (x : float) : string :=
  match Prim2SF x with
  | S754_nan => "NaN"
  | S754_infinity s => if s then "-Infinity" else "Infinity"
  | S754_zero _ => place_point f "0"
  | S754_finite s m e =>
      let sign := if s then "-" else "" in
      if 10 ^ 21 <=? Z.shiftl (Z.pos m) e then sign +:+ big (PrimFloat.abs x)
      else sign +:+ place_point f (digits (nearest_scaled f m e))
  end.



End JS.

(** ** What the browser supplies and the script does not define *)

Record Platform := {
  (* [ctx.measureText(label).width] under the label font *)
  measureText : string -> float;
  (* Number::toString on magnitudes of at least 10^21 (see [JS.toFixed]) *)
  Number_toString_big : float -> string
}.

(** ** Detections and the drawing surface *)

(** One element of what [model.detect] returns: [{class, score, bbox:[x,y,w,h]}]. *)
Record Prediction := {
  class : string;
  score : float;
  bbox : float * float * float * float
}.

(** Calls on the 2D context, in the order the script makes them. *)
Inductive CanvasOp :=
| drawImage (w h : N)
| set_strokeStyle (c : string)
| set_lineWidth (n : float)
| strokeRect (x y w h : float)
| set_font (f : string)
| set_fillStyle (c : string)
| fillRect (x y w h : float)
| fillText (t : string) (x y : float).

(** ** The annotator: filtering and drawing *)

Module Annotator.

(** [const DANGEROUS = new Set(['knife', 'scissors', 'baseball bat'])] *)
Definition DANGEROUS : gset string := {[ "knife"; "scissors"; "baseball bat" ]}.

(** [DANGEROUS.has(c)] *)
Definition DANGEROUS_has (c : string) : bool := bool_decide (c ∈ DANGEROUS).

(** [showAll.checked ? predictions
                     : predictions.filter(p => DANGEROUS.has(p.class))] *)
Definition filtered (showAll_checked : bool) (predictions : list Prediction)
  : list Prediction :=
  if showAll_checked then predictions
  else filter (λ p, class p ∈ DANGEROUS) predictions.

Definition label_font : string :=
  "600 14px ui-sans-serif, system-ui, -apple-system, Segoe UI, Roboto, Arial".

(** [`${p.class} ${(p.score * 100).toFixed(1)}%`] *)
Definition label (pf : Platform) (p : Prediction) : string :=
  class p +:+ " " +:+
  JS.toFixed (Number_toString_big pf) 1 (score p * 100)%float +:+ "%".

Definition padX : float := 8%float.
Definition boxH : float := 22%float.

(** The body of [for (const p of preds)] in [drawBoxes]. *)
Definition draw_one (pf : Platform) (p : Prediction) : list CanvasOp :=
  let '(x, y, w, h) := bbox p in
  let isDanger := DANGEROUS_has (class p) in
  let color := if isDanger then "#f87171" else "#7dd3fc" in
  let thick := if isDanger then 4%float else 2%float in
  let textW := measureText pf (label pf p) in
  let boxW := (textW + padX * 2)%float in
  [ set_strokeStyle color;
    set_lineWidth thick;
    strokeRect x y w h;
    set_font label_font;
    set_fillStyle "rgba(0,0,0,0.6)";
    fillRect x (JS.Math_max 0 (y - boxH)) boxW boxH;
    set_fillStyle "#ffffff";
    fillText (label pf p) (x + padX)%float (JS.Math_max 12 (y - 6)) ].

(** [drawBoxes.prev] after [if (!drawBoxes.prev) drawBoxes.prev = now]:
    [undefined], zero and NaN are replaced by [now]. *)
Definition prev_or_now (prev : option float) (now : float) : float :=
  match prev with
  | Some t => if JS.truthy t then t else now
  | None => now
  end.

(** [1000 / Math.max(1, now - drawBoxes.prev)] *)
Definition fps (prev : option float) (now : float) : float :=
  (1000 / JS.Math_max 1 (now - prev_or_now prev now))%float.

(** [`~${fps.toFixed(1)} FPS`] *)
Definition fps_text (pf : Platform) (prev : option float) (now : float) : string :=
  "~" +:+ JS.toFixed (Number_toString_big pf) 1 (fps prev now) +:+ " FPS".

(** The status corner at the end of [drawBoxes]. *)
Definition draw_fps (pf : Platform) (prev : option float) (now : float)
  : list CanvasOp :=
  [ set_fillStyle "rgba(0,0,0,0.5)";
    fillRect 8 8 110 26;
    set_fillStyle "#e6ecf2";
    set_font label_font;
    fillText (fps_text pf prev now) 16 26 ].

(** [drawBoxes(preds)] with [performance.now()] returning [now] and
    [drawBoxes.prev] holding [prev]: the context calls made, and the new
    value of [drawBoxes.prev]. *)
Definition drawBoxes (pf : Platform) (preds : list Prediction)
  (prev : option float) (now : float) : list CanvasOp * option float :=
  (concat (map (draw_one pf) preds) ++ draw_fps pf prev now, Some now).

End Annotator.

(** ** The capture/render loop *)

Module Session.

Import Annotator.

(** What [cocoSsd.load] resolves to; the script only tests it for null. *)
Inductive Detector := lite_mobilenet_v2.

(** A camera stream handle. *)
Definition MediaStream := nat.

(** The script's globals, the parts of the page it reads and writes, and
    the work the browser holds for it. *)
#[projections(primitive)] Record State := {
  model : option Detector;  (* [let model = null] *)
  stream : option MediaStream;  (* [let stream = null] *)
  running : bool;  (* [let running = false] *)
  rafId : option nat;  (* [let rafId = null] *)
  drawBoxes_prev : option float;  (* the property [drawBoxes.prev], [None] while undefined *)
  status : string;  (* [statusEl.textContent] *)
  startBtn_disabled : bool;
  stopBtn_disabled : bool;
  showAll_checked : bool;  (* [showAll.checked] *)
  video_srcObject : option MediaStream;  (* [video.srcObject] *)
  canvas_width : N;
  canvas_height : N;
  surface : list CanvasOp;  (* what was drawn on the canvas since it was last cleared *)
  load_pending : bool;  (* the promise of [cocoSsd.load] is not settled yet *)
  awaiting_getUserMedia : nat;  (* start handlers suspended at [await getUserMedia] *)
  awaiting_play : nat;  (* start handlers suspended at [await video.play()] *)
  awaiting_detect : nat;  (* [loop] invocations suspended at [await model.detect(video)] *)
  raf_queue : list nat;  (* handles of the pending [requestAnimationFrame(loop)] callbacks *)
  raf_next : nat;  (* the handle the next [requestAnimationFrame] returns *)
  stopped_streams : list MediaStream;  (* streams whose tracks were stopped *)
  console_errors : nat  (* number of [console.error] calls *)
}.

Definition set_model (v : option Detector) (s : State) : State :=
  {| model := v; stream := stream s; running := running s; rafId := rafId s;
     drawBoxes_prev := drawBoxes_prev s; status := status s;
     startBtn_disabled := startBtn_disabled s;
     stopBtn_disabled := stopBtn_disabled s;
     showAll_checked := showAll_checked s;
     video_srcObject := video_srcObject s; canvas_width := canvas_width s;
     canvas_height := canvas_height s; surface := surface s;
     load_pending := load_pending s;
     awaiting_getUserMedia := awaiting_getUserMedia s;
     awaiting_play := awaiting_play s; awaiting_detect := awaiting_detect s;
     raf_queue := raf_queue s; raf_next := raf_next s;
     stopped_streams := stopped_streams s;
     console_errors := console_errors s |}.

Definition set_stream (v : option MediaStream) (s : State) : State :=
  {| model := model s; stream := v; running := running s; rafId := rafId s;
     drawBoxes_prev := drawBoxes_prev s; status := status s;
     startBtn_disabled := startBtn_disabled s;
     stopBtn_disabled := stopBtn_disabled s;
     showAll_checked := showAll_checked s;
     video_srcObject := video_srcObject s; canvas_width := canvas_width s;
     canvas_height := canvas_height s; surface := surface s;
     load_pending := load_pending s;
     awaiting_getUserMedia := awaiting_getUserMedia s;
     awaiting_play := awaiting_play s; awaiting_detect := awaiting_detect s;
     raf_queue := raf_queue s; raf_next := raf_next s;
     stopped_streams := stopped_streams s;
     console_errors := console_errors s |}.

Definition set_running (v : bool) (s : State) : State :=
  {| model := model s; stream := stream s; running := v; rafId := rafId s;
     drawBoxes_prev := drawBoxes_prev s; status := status s;
     startBtn_disabled := startBtn_disabled s;
     stopBtn_disabled := stopBtn_disabled s;
     showAll_checked := showAll_checked s;
     video_srcObject := video_srcObject s; canvas_width := canvas_width s;
     canvas_height := canvas_height s; surface := surface s;
     load_pending := load_pending s;
     awaiting_getUserMedia := awaiting_getUserMedia s;
     awaiting_play := awaiting_play s; awaiting_detect := awaiting_detect s;
     raf_queue := raf_queue s; raf_next := raf_next s;
     stopped_streams := stopped_streams s;
     console_errors := console_errors s |}.

Definition set_rafId (v : option nat) (s : State) : State :=
  {| model := model s; stream := stream s; running := running s; rafId := v;
     drawBoxes_prev := drawBoxes_prev s; status := status s;
     startBtn_disabled := startBtn_disabled s;
     stopBtn_disabled := stopBtn_disabled s;
     showAll_checked := showAll_checked s;
     video_srcObject := video_srcObject s; canvas_width := canvas_width s;
     canvas_height := canvas_height s; surface := surface s;
     load_pending := load_pending s;
     awaiting_getUserMedia := awaiting_getUserMedia s;
     awaiting_play := awaiting_play s; awaiting_detect := awaiting_detect s;
     raf_queue := raf_queue s; raf_next := raf_next s;
     stopped_streams := stopped_streams s;
     console_errors := console_errors s |}.

Definition set_drawBoxes_prev (v : option float) (s : State) : State :=
  {| model := model s; stream := stream s; running := running s;
     rafId := rafId s; drawBoxes_prev := v; status := status s;
     startBtn_disabled := startBtn_disabled s;
     stopBtn_disabled := stopBtn_disabled s;
     showAll_checked := showAll_checked s;
     video_srcObject := video_srcObject s; canvas_width := canvas_width s;
     canvas_height := canvas_height s; surface := surface s;
     load_pending := load_pending s;
     awaiting_getUserMedia := awaiting_getUserMedia s;
     awaiting_play := awaiting_play s; awaiting_detect := awaiting_detect s;
     raf_queue := raf_queue s; raf_next := raf_next s;
     stopped_streams := stopped_streams s;
     console_errors := console_errors s |}.

Definition set_status (v : string) (s : State) : State :=
  {| model := model s; stream := stream s; running := running s;
     rafId := rafId s; drawBoxes_prev := drawBoxes_prev s; status := v;
     startBtn_disabled := startBtn_disabled s;
     stopBtn_disabled := stopBtn_disabled s;
     showAll_checked := showAll_checked s;
     video_srcObject := video_srcObject s; canvas_width := canvas_width s;
     canvas_height := canvas_height s; surface := surface s;
     load_pending := load_pending s;
     awaiting_getUserMedia := awaiting_getUserMedia s;
     awaiting_play := awaiting_play s; awaiting_detect := awaiting_detect s;
     raf_queue := raf_queue s; raf_next := raf_next s;
     stopped_streams := stopped_streams s;
     console_errors := console_errors s |}.

Definition set_startBtn_disabled (v : bool) (s : State) : State :=
  {| model := model s; stream := stream s; running := running s;
     rafId := rafId s; drawBoxes_prev := drawBoxes_prev s;
     status := status s; startBtn_disabled := v;
     stopBtn_disabled := stopBtn_disabled s;
     showAll_checked := showAll_checked s;
     video_srcObject := video_srcObject s; canvas_width := canvas_width s;
     canvas_height := canvas_height s; surface := surface s;
     load_pending := load_pending s;
     awaiting_getUserMedia := awaiting_getUserMedia s;
     awaiting_play := awaiting_play s; awaiting_detect := awaiting_detect s;
     raf_queue := raf_queue s; raf_next := raf_next s;
     stopped_streams := stopped_streams s;
     console_errors := console_errors s |}.

Definition set_stopBtn_disabled (v : bool) (s : State) : State :=
  {| model := model s; stream := stream s; running := running s;
     rafId := rafId s; drawBoxes_prev := drawBoxes_prev s;
     status := status s; startBtn_disabled := startBtn_disabled s;
     stopBtn_disabled := v; showAll_checked := showAll_checked s;
     video_srcObject := video_srcObject s; canvas_width := canvas_width s;
     canvas_height := canvas_height s; surface := surface s;
     load_pending := load_pending s;
     awaiting_getUserMedia := awaiting_getUserMedia s;
     awaiting_play := awaiting_play s; awaiting_detect := awaiting_detect s;
     raf_queue := raf_queue s; raf_next := raf_next s;
     stopped_streams := stopped_streams s;
     console_errors := console_errors s |}.

Definition set_showAll_checked (v : bool) (s : State) : State :=
  {| model := model s; stream := stream s; running := running s;
     rafId := rafId s; drawBoxes_prev := drawBoxes_prev s;
     status := status s; startBtn_disabled := startBtn_disabled s;
     stopBtn_disabled := stopBtn_disabled s; showAll_checked := v;
     video_srcObject := video_srcObject s; canvas_width := canvas_width s;
     canvas_height := canvas_height s; surface := surface s;
     load_pending := load_pending s;
     awaiting_getUserMedia := awaiting_getUserMedia s;
     awaiting_play := awaiting_play s; awaiting_detect := awaiting_detect s;
     raf_queue := raf_queue s; raf_next := raf_next s;
     stopped_streams := stopped_streams s;
     console_errors := console_errors s |}.

Definition set_video_srcObject (v : option MediaStream) (s : State) : State :=
  {| model := model s; stream := stream s; running := running s;
     rafId := rafId s; drawBoxes_prev := drawBoxes_prev s;
     status := status s; startBtn_disabled := startBtn_disabled s;
     stopBtn_disabled := stopBtn_disabled s;
     showAll_checked := showAll_checked s; video_srcObject := v;
     canvas_width := canvas_width s; canvas_height := canvas_height s;
     surface := surface s; load_pending := load_pending s;
     awaiting_getUserMedia := awaiting_getUserMedia s;
     awaiting_play := awaiting_play s; awaiting_detect := awaiting_detect s;
     raf_queue := raf_queue s; raf_next := raf_next s;
     stopped_streams := stopped_streams s;
     console_errors := console_errors s |}.

Definition set_canvas_width (v : N) (s : State) : State :=
  {| model := model s; stream := stream s; running := running s;
     rafId := rafId s; drawBoxes_prev := drawBoxes_prev s;
     status := status s; startBtn_disabled := startBtn_disabled s;
     stopBtn_disabled := stopBtn_disabled s;
     showAll_checked := showAll_checked s;
     video_srcObject := video_srcObject s; canvas_width := v;
     canvas_height := canvas_height s; surface := surface s;
     load_pending := load_pending s;
     awaiting_getUserMedia := awaiting_getUserMedia s;
     awaiting_play := awaiting_play s; awaiting_detect := awaiting_detect s;
     raf_queue := raf_queue s; raf_next := raf_next s;
     stopped_streams := stopped_streams s;
     console_errors := console_errors s |}.

Definition set_canvas_height (v : N) (s : State) : State :=
  {| model := model s; stream := stream s; running := running s;
     rafId := rafId s; drawBoxes_prev := drawBoxes_prev s;
     status := status s; startBtn_disabled := startBtn_disabled s;
     stopBtn_disabled := stopBtn_disabled s;
     showAll_checked := showAll_checked s;
     video_srcObject := video_srcObject s; canvas_width := canvas_width s;
     canvas_height := v; surface := surface s;
     load_pending := load_pending s;
     awaiting_getUserMedia := awaiting_getUserMedia s;
     awaiting_play := awaiting_play s; awaiting_detect := awaiting_detect s;
     raf_queue := raf_queue s; raf_next := raf_next s;
     stopped_streams := stopped_streams s;
     console_errors := console_errors s |}.

Definition set_surface (v : list CanvasOp) (s : State) : State :=
  {| model := model s; stream := stream s; running := running s;
     rafId := rafId s; drawBoxes_prev := drawBoxes_prev s;
     status := status s; startBtn_disabled := startBtn_disabled s;
     stopBtn_disabled := stopBtn_disabled s;
     showAll_checked := showAll_checked s;
     video_srcObject := video_srcObject s; canvas_width := canvas_width s;
     canvas_height := canvas_height s; surface := v;
     load_pending := load_pending s;
     awaiting_getUserMedia := awaiting_getUserMedia s;
     awaiting_play := awaiting_play s; awaiting_detect := awaiting_detect s;
     raf_queue := raf_queue s; raf_next := raf_next s;
     stopped_streams := stopped_streams s;
     console_errors := console_errors s |}.

Definition set_load_pending (v : bool) (s : State) : State :=
  {| model := model s; stream := stream s; running := running s;
     rafId := rafId s; drawBoxes_prev := drawBoxes_prev s;
     status := status s; startBtn_disabled := startBtn_disabled s;
     stopBtn_disabled := stopBtn_disabled s;
     showAll_checked := showAll_checked s;
     video_srcObject := video_srcObject s; canvas_width := canvas_width s;
     canvas_height := canvas_height s; surface := surface s;
     load_pending := v; awaiting_getUserMedia := awaiting_getUserMedia s;
     awaiting_play := awaiting_play s; awaiting_detect := awaiting_detect s;
     raf_queue := raf_queue s; raf_next := raf_next s;
     stopped_streams := stopped_streams s;
     console_errors := console_errors s |}.

Definition set_awaiting_getUserMedia (v : nat) (s : State) : State :=
  {| model := model s; stream := stream s; running := running s;
     rafId := rafId s; drawBoxes_prev := drawBoxes_prev s;
     status := status s; startBtn_disabled := startBtn_disabled s;
     stopBtn_disabled := stopBtn_disabled s;
     showAll_checked := showAll_checked s;
     video_srcObject := video_srcObject s; canvas_width := canvas_width s;
     canvas_height := canvas_height s; surface := surface s;
     load_pending := load_pending s; awaiting_getUserMedia := v;
     awaiting_play := awaiting_play s; awaiting_detect := awaiting_detect s;
     raf_queue := raf_queue s; raf_next := raf_next s;
     stopped_streams := stopped_streams s;
     console_errors := console_errors s |}.

Definition set_awaiting_play (v : nat) (s : State) : State :=
  {| model := model s; stream := stream s; running := running s;
     rafId := rafId s; drawBoxes_prev := drawBoxes_prev s;
     status := status s; startBtn_disabled := startBtn_disabled s;
     stopBtn_disabled := stopBtn_disabled s;
     showAll_checked := showAll_checked s;
     video_srcObject := video_srcObject s; canvas_width := canvas_width s;
     canvas_height := canvas_height s; surface := surface s;
     load_pending := load_pending s;
     awaiting_getUserMedia := awaiting_getUserMedia s; awaiting_play := v;
     awaiting_detect := awaiting_detect s; raf_queue := raf_queue s;
     raf_next := raf_next s; stopped_streams := stopped_streams s;
     console_errors := console_errors s |}.

Definition set_awaiting_detect (v : nat) (s : State) : State :=
  {| model := model s; stream := stream s; running := running s;
     rafId := rafId s; drawBoxes_prev := drawBoxes_prev s;
     status := status s; startBtn_disabled := startBtn_disabled s;
     stopBtn_disabled := stopBtn_disabled s;
     showAll_checked := showAll_checked s;
     video_srcObject := video_srcObject s; canvas_width := canvas_width s;
     canvas_height := canvas_height s; surface := surface s;
     load_pending := load_pending s;
     awaiting_getUserMedia := awaiting_getUserMedia s;
     awaiting_play := awaiting_play s; awaiting_detect := v;
     raf_queue := raf_queue s; raf_next := raf_next s;
     stopped_streams := stopped_streams s;
     console_errors := console_errors s |}.

Definition set_raf_queue (v : list nat) (s : State) : State :=
  {| model := model s; stream := stream s; running := running s;
     rafId := rafId s; drawBoxes_prev := drawBoxes_prev s;
     status := status s; startBtn_disabled := startBtn_disabled s;
     stopBtn_disabled := stopBtn_disabled s;
     showAll_checked := showAll_checked s;
     video_srcObject := video_srcObject s; canvas_width := canvas_width s;
     canvas_height := canvas_height s; surface := surface s;
     load_pending := load_pending s;
     awaiting_getUserMedia := awaiting_getUserMedia s;
     awaiting_play := awaiting_play s; awaiting_detect := awaiting_detect s;
     raf_queue := v; raf_next := raf_next s;
     stopped_streams := stopped_streams s;
     console_errors := console_errors s |}.

Definition set_raf_next (v : nat) (s : State) : State :=
  {| model := model s; stream := stream s; running := running s;
     rafId := rafId s; drawBoxes_prev := drawBoxes_prev s;
     status := status s; startBtn_disabled := startBtn_disabled s;
     stopBtn_disabled := stopBtn_disabled s;
     showAll_checked := showAll_checked s;
     video_srcObject := video_srcObject s; canvas_width := canvas_width s;
     canvas_height := canvas_height s; surface := surface s;
     load_pending := load_pending s;
     awaiting_getUserMedia := awaiting_getUserMedia s;
     awaiting_play := awaiting_play s; awaiting_detect := awaiting_detect s;
     raf_queue := raf_queue s; raf_next := v;
     stopped_streams := stopped_streams s;
     console_errors := console_errors s |}.

Definition set_stopped_streams (v : list MediaStream) (s : State) : State :=
  {| model := model s; stream := stream s; running := running s;
     rafId := rafId s; drawBoxes_prev := drawBoxes_prev s;
     status := status s; startBtn_disabled := startBtn_disabled s;
     stopBtn_disabled := stopBtn_disabled s;
     showAll_checked := showAll_checked s;
     video_srcObject := video_srcObject s; canvas_width := canvas_width s;
     canvas_height := canvas_height s; surface := surface s;
     load_pending := load_pending s;
     awaiting_getUserMedia := awaiting_getUserMedia s;
     awaiting_play := awaiting_play s; awaiting_detect := awaiting_detect s;
     raf_queue := raf_queue s; raf_next := raf_next s; stopped_streams := v;
     console_errors := console_errors s |}.

Definition set_console_errors (v : nat) (s : State) : State :=
  {| model := model s; stream := stream s; running := running s;
     rafId := rafId s; drawBoxes_prev := drawBoxes_prev s;
     status := status s; startBtn_disabled := startBtn_disabled s;
     stopBtn_disabled := stopBtn_disabled s;
     showAll_checked := showAll_checked s;
     video_srcObject := video_srcObject s; canvas_width := canvas_width s;
     canvas_height := canvas_height s; surface := surface s;
     load_pending := load_pending s;
     awaiting_getUserMedia := awaiting_getUserMedia s;
     awaiting_play := awaiting_play s; awaiting_detect := awaiting_detect s;
     raf_queue := raf_queue s; raf_next := raf_next s;
     stopped_streams := stopped_streams s; console_errors := v |}.

(** [cancelAnimationFrame(id)], and the browser taking a callback off
    its list to run it. *)
Definition raf_remove (id : nat) (q : list nat) : list nat :=
  filter (λ j, j ≠ id) q.

#[global] Arguments raf_remove : simpl never.

(** [async function loop()] up to its [await]: returns at once when
    [running] is false; otherwise draws the frame and leaves one more
    detector call in flight. ([running] is only set once [model] is, so
    [model.detect] is a call on the loaded detector.) *)
Definition loop (s : State) : State :=
  if running s then
    set_awaiting_detect (S (awaiting_detect s))
      (set_surface (surface s ++ [drawImage (canvas_width s) (canvas_height s)]) s)
  else s.

(** [loop] from the settlement of [model.detect(video)] to its end:
    [result] is [None] when the call rejected ([catch] logs it and
    [predictions] stays [[]]). *)
Definition loop_resume (pf : Platform) (result : option (list Prediction))
  (now : float) (s : State) : State :=
  let errors :=
    match result with
    | Some _ => console_errors s
    | None => S (console_errors s)
    end in
  let predictions := default [] result in
  let drawn :=
    drawBoxes pf (filtered (showAll_checked s) predictions)
      (drawBoxes_prev s) now in
  set_raf_next (S (raf_next s))
    (set_raf_queue (raf_queue s ++ [raf_next s])
       (set_rafId (Some (raf_next s))
          (set_drawBoxes_prev (snd drawn)
             (set_surface (surface s ++ fst drawn)
                (set_console_errors errors s))))).

(** The click handler of [startBtn] up to [await getUserMedia]. *)
Definition startBtn_onclick (s : State) : State :=
  match model s with
  | None => set_status "Still loading model…" s
  | Some _ => set_awaiting_getUserMedia (S (awaiting_getUserMedia s)) s
  end.

(** ... from the stream [h] to [await video.play()]. *)
Definition start_got_stream (h : MediaStream) (s : State) : State :=
  set_awaiting_play (S (awaiting_play s))
    (set_video_srcObject (Some h) (set_stream (Some h) s)).

(** [n || d] on a dimension. *)
Definition or_default (n d : N) : N := if (n =? 0)%N then d else n.

(** ... from playback to the first call of [loop]. Assigning the canvas
    size clears the canvas. *)
Definition start_playing (videoWidth videoHeight : N) (s : State) : State :=
  loop
    (set_status "Camera running. Detecting…"
       (set_stopBtn_disabled false
          (set_startBtn_disabled true
             (set_running true
                (set_surface []
                   (set_canvas_height (or_default videoHeight 720)
                      (set_canvas_width (or_default videoWidth 1280) s))))))).

(** ... and its [catch]. *)
Definition start_catch (s : State) : State :=
  set_status "Could not access camera. Check permissions."
    (set_console_errors (S (console_errors s)) s).

(** The click handler of [stopBtn]. A handle is truthy unless it is 0;
    [stream] is null afterwards whether or not it was before. *)
Definition stopBtn_onclick (s : State) : State :=
  let queue :=
    match rafId s with
    | Some (S id) => raf_remove (S id) (raf_queue s)
    | Some O | None => raf_queue s
    end in
  let stopped :=
    match stream s with
    | Some h => stopped_streams s ++ [h]
    | None => stopped_streams s
    end in
  set_status "Camera stopped."
    (set_stopBtn_disabled true
       (set_startBtn_disabled false
          (set_surface []
             (set_stream None
                (set_stopped_streams stopped
                   (set_raf_queue queue
                      (set_running false s))))))).

(** The [then] and [catch] of [cocoSsd.load]. *)
Definition load_then (s : State) : State :=
  set_status "Model loaded. Click “Start Camera”."
    (set_model (Some lite_mobilenet_v2) (set_load_pending false s)).

Definition load_catch (s : State) : State :=
  set_status "Failed to load model."
    (set_console_errors (S (console_errors s)) (set_load_pending false s)).

(** What can happen to the page. Clicks are delivered whatever the
    buttons' [disabled] attributes say: the handlers are what is modelled. *)
Inductive Event :=
| load_resolved
| load_rejected
| startBtn_click
| stopBtn_click
| showAll_change (checked : bool)
| getUserMedia_resolved (h : MediaStream)
| getUserMedia_rejected
| play_resolved (videoWidth videoHeight : N)
| play_rejected
| detect_resolved (predictions : list Prediction) (now : float)
| detect_rejected (now : float)
| animation_frame (id : nat).

(** One turn of the event loop; [None] when the event cannot occur in [s]. *)
Definition step (pf : Platform) (s : State) (e : Event) : option State :=
  match e with
  | load_resolved =>
      if load_pending s then Some (load_then s) else None
  | load_rejected =>
      if load_pending s then Some (load_catch s) else None
  | startBtn_click => Some (startBtn_onclick s)
  | stopBtn_click => Some (stopBtn_onclick s)
  | showAll_change b => Some (set_showAll_checked b s)
  | getUserMedia_resolved h =>
      match awaiting_getUserMedia s with
      | S n => Some (start_got_stream h (set_awaiting_getUserMedia n s))
      | O => None
      end
  | getUserMedia_rejected =>
      match awaiting_getUserMedia s with
      | S n => Some (start_catch (set_awaiting_getUserMedia n s))
      | O => None
      end
  | play_resolved vw vh =>
      match awaiting_play s with
      | S n => Some (start_playing vw vh (set_awaiting_play n s))
      | O => None
      end
  | play_rejected =>
      match awaiting_play s with
      | S n => Some (start_catch (set_awaiting_play n s))
      | O => None
      end
  | detect_resolved ps now =>
      match awaiting_detect s with
      | S n => Some (loop_resume pf (Some ps) now (set_awaiting_detect n s))
      | O => None
      end
  | detect_rejected now =>
      match awaiting_detect s with
      | S n => Some (loop_resume pf None now (set_awaiting_detect n s))
      | O => None
      end
  | animation_frame id =>
      if bool_decide (id ∈ raf_queue s)
      then Some (loop (set_raf_queue (raf_remove id (raf_queue s)) s))
      else None
  end.

Fixpoint run (pf : Platform) (s : State) (evs : list Event) : option State :=
  match evs with
  | [] => Some s
  | e :: evs' =>
      match step pf s e with
      | Some s' => run pf s' evs'
      | None => None
      end
  end.

(** The page as the script finds it: nothing loaded, started or drawn;
    the rest (status text, button attributes, canvas size) is the HTML's. *)
Definition initial (s : State) : Prop :=
  model s = None ∧ stream s = None ∧ running s = false ∧ rafId s = None ∧
  drawBoxes_prev s = None ∧ video_srcObject s = None ∧ surface s = [] ∧
  load_pending s = true ∧ awaiting_getUserMedia s = 0%nat ∧
  awaiting_play s = 0%nat ∧ awaiting_detect s = 0%nat ∧
  raf_queue s = [] ∧ raf_next s = 1%nat.

Definition reachable (pf : Platform) (s : State) : Prop :=
  ∃ s0 evs, initial s0 ∧ run pf s0 evs = Some s.

(** A page to run examples on: a 300x150 canvas, [showAll] unchecked. *)
Definition page0 : State :=
  {| model := None; stream := None; running := false; rafId := None;
     drawBoxes_prev := None; status := "Loading model…";
     startBtn_disabled := false; stopBtn_disabled := true;
     showAll_checked := false; video_srcObject := None;
     canvas_width := 300; canvas_height := 150; surface := [];
     load_pending := true; awaiting_getUserMedia := 0; awaiting_play := 0;
     awaiting_detect := 0; raf_queue := []; raf_next := 1;
     stopped_streams := []; console_errors := 0 |}.

(** Outstanding frame cycles: scheduled callbacks and suspended [loop]s. *)
Definition outstanding (s : State) : nat :=
  (length (raf_queue s) + awaiting_detect s)%nat.

(** Start handlers that have not finished. *)
Definition starting (s : State) : nat :=
  (awaiting_getUserMedia s + awaiting_play s)%nat.

(** The spec's [Idle]: not running, no stream, nothing scheduled. *)
Definition Idle (s : State) : Prop :=
  running s = false ∧ stream s = None ∧ raf_queue s = [].

(** Use of the two buttons that never overlaps a start still in flight,
    and never starts over a running session or a frame cycle left behind. *)
Definition orderly (s : State) (e : Event) : bool :=
  match e with
  | startBtn_click =>
      match model s with
      | None => true
      | Some _ =>
          negb (running s) && bool_decide (starting s = 0)
          && bool_decide (outstanding s = 0)
      end
  | stopBtn_click => bool_decide (starting s = 0)
  | _ => true
  end.

Fixpoint run_orderly (pf : Platform) (s : State) (evs : list Event)
  : option State :=
  match evs with
  | [] => Some s
  | e :: evs' =>
      if orderly s e then
        match step pf s e with
        | Some s' => run_orderly pf s' evs'
        | None => None
        end
      else None
  end.

(** Before the model is loaded nothing has started. *)
Definition unloaded_quiet (s : State) : Prop :=
  model s = None →
  running s = false ∧ stream s = None ∧ rafId s = None ∧
  raf_queue s = [] ∧ awaiting_getUserMedia s = 0 ∧ awaiting_play s = 0 ∧
  awaiting_detect s = 0.

(** Handles in the queue are distinct, non-zero and already handed out. *)
Definition handles_fresh (s : State) : Prop :=
  0 < raf_next s ∧ NoDup (raf_queue s) ∧
  ∀ id, id ∈ raf_queue s → 0 < id < raf_next s.

(** The settlement of a detector call as an event. *)
Definition detect_settled (result : option (list Prediction)) (now : float)
  : Event :=
  match result with
  | Some ps => detect_resolved ps now
  | None => detect_rejected now
  end.

(** The session invariant as the specification words it: running goes
    with a stream and exactly one pending frame callback, not running
    with neither. *)
Definition spec_session_invariant (s : State) : Prop :=
  (running s = true → stream s ≠ None ∧ length (raf_queue s) = 1) ∧
  (running s = false → stream s = None ∧ raf_queue s = []).

(** What holds of the script instead: a running session has a stream and
    exactly one frame cycle outstanding, scheduled or suspended at the
    detector; a stopped one has at most one left over. *)
Definition session_invariant (s : State) : Prop :=
  (running s = true → stream s ≠ None ∧ outstanding s = 1) ∧
  (running s = false → outstanding s ≤ 1).

(** [session_invariant] strengthened until every orderly step keeps it. *)
Definition orderly_invariant (s : State) : Prop :=
  0 < raf_next s ∧
  starting s ≤ 1 ∧
  (running s = true → stream s ≠ None ∧ outstanding s = 1 ∧ starting s = 0) ∧
  outstanding s ≤ 1 ∧
  (starting s = 1 → outstanding s = 0) ∧
  (awaiting_play s = 1 → stream s ≠ None) ∧
  (∀ id, id ∈ raf_queue s → rafId s = Some id ∧ id ≠ 0).

(** [stopBtn]'s handler from [Idle], as the script has it: the canvas is
    cleared, the buttons reset and the status overwritten. *)
Definition stopped_from_idle (s : State) : State :=
  set_status "Camera stopped."
    (set_stopBtn_disabled true
       (set_startBtn_disabled false
          (set_surface [] s))).

End Session.

(** ** Examples to evaluate the model on *)

Definition pf0 : Platform :=
  {| measureText := fun s =>
       PrimFloat.of_uint63 (Uint63.of_Z (8 * Z.of_nat (String.length s))%Z);
     Number_toString_big := fun _ => "1e+21" |}.

Definition knife : Prediction :=
  {| class := "knife"; score := 0x1.d70a3d70a3d71p-1;
     bbox := (10, 10, 50, 60)%float |}.

Definition person : Prediction :=
  {| class := "person"; score := 0x1.9eb851eb851ecp-1;
     bbox := (100, 100, 40, 80)%float |}.

(** A session started on [page0] with stream 7, its first frame cycle
    suspended at the detector. *)
Definition first_cycle_events : list Session.Event :=
  [Session.load_resolved; Session.startBtn_click;
   Session.getUserMedia_resolved 7; Session.play_resolved 640 480].

Definition first_cycle : Session.State :=
  Eval vm_compute in
    default Session.page0 (Session.run pf0 Session.page0 first_cycle_events).

(** An orderly session on [page0]: one frame is drawn and rescheduled,
    stop() overtakes the second cycle, which settles and dies. *)
Definition orderly_events : list Session.Event :=
  first_cycle_events ++
  [Session.detect_resolved [knife; person] 16; Session.animation_frame 1;
   Session.stopBtn_click; Session.detect_rejected 40;
   Session.animation_frame 2].

Definition orderly_end : Session.State :=
  Eval vm_compute in
    default Session.page0 (Session.run pf0 Session.page0 orderly_events).

(** stop() overtook the first cycle, whose detector call then resolved. *)
Definition overtaken_events : list Session.Event :=
  first_cycle_events ++ [Session.stopBtn_click; Session.detect_resolved [] 16].

Definition overtaken : Session.State :=
  Eval vm_compute in
    default Session.page0 (Session.run pf0 Session.page0 overtaken_events).

(** start() got stream 7 and then playback failed. *)
Definition play_failed : Session.State :=
  Eval vm_compute in
    default Session.page0
      (Session.run pf0 Session.page0
         [Session.load_resolved; Session.startBtn_click;
          Session.getUserMedia_resolved 7; Session.play_rejected]).

(** The model is loaded and nothing else has happened. *)
Definition model_loaded : Session.State :=
  Eval vm_compute in
    default Session.page0
      (Session.run pf0 Session.page0 [Session.load_resolved]).

(** start() holds stream 7 and waits for playback. *)
Definition start_in_flight : Session.State :=
  Eval vm_compute in
    default Session.page0
      (Session.run pf0 Session.page0
         [Session.load_resolved; Session.startBtn_click;
          Session.getUserMedia_resolved 7]).

(** ** Reading a drawing back *)

Module Surface.

(** The rectangles stroked, in order. *)
Definition strokes (ops : list CanvasOp)
  : list (float * float * float * float) :=
  omap (λ op, match op with
              | strokeRect x y w h => Some (x, y, w, h)
              | _ => None
              end) ops.

(** The stroke colours set, in order. *)
Definition stroke_styles (ops : list CanvasOp) : list string :=
  omap (λ op, match op with set_strokeStyle c => Some c | _ => None end) ops.

(** The line widths set, in order. *)
Definition line_widths (ops : list CanvasOp) : list float :=
  omap (λ op, match op with set_lineWidth n => Some n | _ => None end) ops.

(** The texts filled, in order. *)
Definition texts (ops : list CanvasOp) : list string :=
  omap (λ op, match op with fillText t _ _ => Some t | _ => None end) ops.

End Surface.

(** How a step may change the number of outstanding frame cycles. *)
Definition cycles_after (e : Session.Event) (s s' : Session.State) : Prop :=
  match e with
  | Session.play_resolved _ _ =>
      Session.outstanding s' = S (Session.outstanding s)
  | Session.animation_frame _ =>
      if Session.running s
      then Session.outstanding s' = Session.outstanding s
      else S (Session.outstanding s') = Session.outstanding s
  | Session.stopBtn_click =>
      Session.outstanding s' ≤ Session.outstanding s
  | _ => Session.outstanding s' = Session.outstanding s
  end.

(** An orderly session on [page0] that is running with stream 7 held, its
    first frame drawn and frame callback 1 pending. *)
Definition frame_pending_events : list Session.Event :=
  first_cycle_events ++ [Session.detect_resolved [knife; person] 16].

Definition frame_pending : Session.State :=
  Eval vm_compute in
    default Session.page0
      (Session.run pf0 Session.page0 frame_pending_events).

(** Two clicks on start before the first one is through. *)
Definition double_start_events (h1 h2 : Session.MediaStream) (vw vh : N)
  : list Session.Event :=
  [Session.startBtn_click; Session.startBtn_click;
   Session.getUserMedia_resolved h1; Session.getUserMedia_resolved h2;
   Session.play_resolved vw vh; Session.play_resolved vw vh].

(** ** Reachable states *)

Import Annotator Session.

(** Every way a step can go, with the handler that ran. *)
Ltac step_cases H :=
  match type of H with
  | step _ ?s ?e = Some _ =>
      destruct e; simpl in H;
      repeat match type of H with
        | (if ?b then _ else _) = Some _ => destruct b eqn:?
        | match ?n with O => _ | S _ => _ end = Some _ => destruct n eqn:?
        end;
      try discriminate H; injection H as <-
  end.

(** Reading a field through the assignments made to the state. *)
Ltac state_simpl := cbn.

Ltac unfold_handlers :=
  unfold load_then, load_catch, startBtn_onclick, stopBtn_onclick,
    start_got_stream, start_catch, start_playing, loop_resume, loop in *.

Ltac handler_cases :=
  unfold_handlers; simpl in *; repeat case_match; simpl in *.

Section Reachability.

Variable pf : Platform.

Lemma run_app s evs1 evs2 :
  run pf s (evs1 ++ evs2) = run pf s evs1 ≫= λ s', run pf s' evs2.
Proof.
  revert s; induction evs1 as [|e evs1 IH]; intros s; simpl; [done|].
  destruct (step pf s e); simpl; [apply IH | done].
Qed.

Lemma reachable_initial s : initial s → reachable pf s.
Proof. intros H. by exists s, []. Qed.

Lemma reachable_step s e s' :
  reachable pf s → step pf s e = Some s' → reachable pf s'.
Proof.
  intros (s0 & evs & Hi & Hr) Hs. exists s0, (evs ++ [e]). split; [done|].
  rewrite run_app, Hr. simpl. by rewrite Hs.
Qed.

(** Induction over the runs of the page. *)
Lemma reachable_ind (I : State → Prop) :
  (∀ s, initial s → I s) →
  (∀ s e s', I s → step pf s e = Some s' → I s') →
  ∀ s, reachable pf s → I s.
Proof.
  intros Hinit Hstep s (s0 & evs & Hi & Hr).
  apply Hinit in Hi. clear Hinit. revert s0 Hi Hr.
  induction evs as [|e evs IH]; intros s0 Hi Hr; simpl in Hr.
  - by injection Hr as <-.
  - destruct (step pf s0 e) as [s1|] eqn:E; [|done]. eauto.
Qed.

Lemma run_orderly_run s evs s' :
  run_orderly pf s evs = Some s' → run pf s evs = Some s'.
Proof.
  revert s; induction evs as [|e evs IH]; intros s; simpl; [done|].
  destruct (orderly s e); [|done]. destruct (step pf s e); [apply IH | done].
Qed.

Lemma unloaded_quiet_reachable s : reachable pf s → unloaded_quiet s.
Proof.
  revert s. apply reachable_ind.
  - intros s (?&?&?&?&?&?&?&?&?&?&?&?&?) _. done.
  - intros s e s' IH H. unfold unloaded_quiet in *.
    step_cases H; handler_cases; intros Hm; try congruence;
      (destruct IH as (?&?&?&?&?&?&?); [congruence|]);
      repeat split; try congruence;
      match goal with Hq : raf_queue _ = [] |- _ => by rewrite Hq end.
Qed.

Lemma raf_remove_fresh id q :
  id ∉ q → raf_remove id q = q.
Proof.
  unfold raf_remove. induction q as [|j q IH]; intros Hn; [done|].
  apply not_elem_of_cons in Hn as [Hne Hn].
  rewrite filter_cons_True by done. by rewrite IH.
Qed.

Lemma raf_remove_idem id q :
  raf_remove id (raf_remove id q) = raf_remove id q.
Proof.
  apply raf_remove_fresh. unfold raf_remove.
  rewrite list_elem_of_filter. tauto.
Qed.

Lemma handles_fresh_remove id s q n :
  handles_fresh s → q = raf_remove id (raf_queue s) → n = raf_next s →
  0 < n ∧ NoDup q ∧ ∀ j, j ∈ q → 0 < j < n.
Proof.
  intros (Hpos & Hnd & Hlt) -> ->. unfold raf_remove. repeat split.
  - done.
  - by apply NoDup_filter.
  - by apply Hlt; eapply list_elem_of_filter.
  - by apply Hlt; eapply list_elem_of_filter.
Qed.

Lemma handles_fresh_reachable s : reachable pf s → handles_fresh s.
Proof.
  revert s. apply reachable_ind.
  - intros s (?&?&?&?&?&?&?&?&?&?&?&Hq&Hn). unfold handles_fresh.
    rewrite Hq, Hn. split; [lia|]. split; [apply NoDup_nil_2|].
    intros id Hid. inversion Hid.
  - intros s e s' IH H.
    step_cases H; handler_cases; unfold handles_fresh in *; simpl;
      try done; try (by eapply handles_fresh_remove).
    all: destruct IH as (Hpos & Hnd & Hlt); split; [lia | split].
    all: try (apply NoDup_app; repeat split;
              [done | intros j Hj ->%list_elem_of_singleton;
                      apply Hlt in Hj; lia | apply NoDup_singleton]).
    all: intros j [Hj | ->%list_elem_of_singleton]%elem_of_app;
      [apply Hlt in Hj; lia | lia].
Qed.

Lemma orderly_invariant_initial s : initial s → orderly_invariant s.
Proof.
  intros (?&?&Hr&?&?&?&?&?&Hg&Hp&Hd&Hq&Hn).
  unfold orderly_invariant, starting, outstanding.
  rewrite Hr, Hg, Hp, Hd, Hq, Hn. simpl.
  repeat split; try done; try lia.
  all: match goal with Hin : _ ∈ [] |- _ => inversion Hin end.
Qed.

Lemma orderly_invariant_step s e s' :
  orderly_invariant s → orderly s e = true → step pf s e = Some s' →
  orderly_invariant s'.
Proof.
  unfold orderly_invariant, orderly, starting, outstanding.
  intros (Hn & Hs & Hrun & Hout & Hso & Hp & Hq) Ho H.
  step_cases H; handler_cases.
  all: repeat match goal with
         | Hb : _ && _ = true |- _ => apply andb_prop in Hb as [? ?]
         | Hb : bool_decide _ = true |- _ => apply bool_decide_eq_true in Hb
         | Hb : negb _ = true |- _ => apply negb_true_iff in Hb
         end.
  all: destruct (raf_queue s) as [|a [|b q]] eqn:Eq; simpl in *; try lia.
  all: unfold raf_remove;
    repeat (rewrite ?filter_cons, ?filter_nil; repeat case_decide); simpl.
  all: repeat match goal with
         | Hall : ∀ id, id ∈ [?a] → _ |- _ =>
             specialize (Hall a (list_elem_of_here a [])) as [? ?]
         | Hall : ∀ id, id ∈ [] → _ |- _ => clear Hall
         end.
  all: repeat split; intros;
    repeat match goal with
      | Hin : _ ∈ [] |- _ => by inversion Hin
      | Hin : _ ∈ [_] |- _ => apply list_elem_of_singleton in Hin as ->
      | Himp : ?P → _ |- _ =>
          let HP := fresh in
          assert (HP : P) by (done || lia); specialize (Himp HP); clear HP
      | Hc : _ ∧ _ |- _ => destruct Hc
      end; simplify_eq; try done; try lia; congruence.
Qed.

Lemma orderly_invariant_run s evs s' :
  orderly_invariant s → run_orderly pf s evs = Some s' →
  orderly_invariant s'.
Proof.
  revert s; induction evs as [|e evs IH]; intros s Hi Hr; simpl in Hr.
  - by injection Hr as <-.
  - destruct (orderly s e) eqn:Eo; [|done].
    destruct (step pf s e) as [s1|] eqn:Es; [|done].
    eauto using orderly_invariant_step.
Qed.

Lemma orderly_session_invariant s :
  orderly_invariant s → session_invariant s.
Proof.
  intros (_ & _ & Hrun & Hout & _). split; [|done].
  intros Hr. by destruct (Hrun Hr) as (? & ? & _).
Qed.

End Reachability.

(** ** The capture/render loop: stopping, starting, failing *)

Lemma page0_initial : initial page0.
Proof. repeat split. Qed.

Lemma first_cycle_reachable : reachable pf0 first_cycle.
Proof.
  exists page0, first_cycle_events.
  split; [apply page0_initial | vm_compute; reflexivity].
Qed.

(** Two states with the same fields are the same state. *)
Lemma State_ext (s t : State) :
  model s = model t →
  stream s = stream t →
  running s = running t →
  rafId s = rafId t →
  drawBoxes_prev s = drawBoxes_prev t →
  status s = status t →
  startBtn_disabled s = startBtn_disabled t →
  stopBtn_disabled s = stopBtn_disabled t →
  showAll_checked s = showAll_checked t →
  video_srcObject s = video_srcObject t →
  canvas_width s = canvas_width t →
  canvas_height s = canvas_height t →
  surface s = surface t →
  load_pending s = load_pending t →
  awaiting_getUserMedia s = awaiting_getUserMedia t →
  awaiting_play s = awaiting_play t →
  awaiting_detect s = awaiting_detect t →
  raf_queue s = raf_queue t →
  raf_next s = raf_next t →
  stopped_streams s = stopped_streams t →
  console_errors s = console_errors t →
  s = t.
Proof.
  destruct s, t. cbn. intros. subst. reflexivity.
Qed.

Lemma stop_idempotent s :
  stopBtn_onclick (stopBtn_onclick s) = stopBtn_onclick s.
Proof.
  apply State_ext; unfold stopBtn_onclick; cbn; try reflexivity.
  destruct (rafId s) as [[|id]|]; rewrite ?raf_remove_idem; reflexivity.
Qed.

(** What stop() sets and what it leaves alone. *)
Lemma stop_fields s :
  let s' := stopBtn_onclick s in
  running s' = false ∧ stream s' = None ∧
  awaiting_detect s' = awaiting_detect s ∧
  awaiting_getUserMedia s' = awaiting_getUserMedia s ∧
  awaiting_play s' = awaiting_play s ∧
  raf_next s' = raf_next s ∧ model s' = model s ∧
  surface s' = [] ∧ status s' = "Camera stopped.".
Proof.
  repeat split.
Qed.

(** C1, as amended. A frame cycle that is suspended at the detector call
    when stop() runs still renders once the call settles (resolved or
    rejected): the frame's boxes and the FPS corner are drawn on the canvas
    stop() cleared, and one more frame callback is scheduled and stored in
    rafId. Whenever that callback runs with running false, right then or
    in any later state, it returns at the guard at the head of loop: the
    state after it is the state before it with its handle taken off the
    queue, so nothing is drawn, no detector call is made and nothing
    further is scheduled. *)
Theorem stop_in_flight_cycle_dies pf s0 n result now :
  reachable pf s0 → awaiting_detect s0 = S n →
  let s := stopBtn_onclick s0 in
  ∃ s1,
    step pf s (detect_settled result now) = Some s1 ∧
    running s1 = false ∧
    surface s1
    = fst (drawBoxes pf (filtered (showAll_checked s0) (default [] result))
             (drawBoxes_prev s0) now) ∧
    surface s1 ≠ [] ∧
    raf_queue s1 = raf_queue s ++ [raf_next s] ∧
    rafId s1 = Some (raf_next s) ∧
    step pf s1 (animation_frame (raf_next s))
      = Some (set_raf_queue (raf_queue s) s1) ∧
    ∀ s2, running s2 = false → raf_next s ∈ raf_queue s2 →
          step pf s2 (animation_frame (raf_next s))
          = Some (set_raf_queue (raf_remove (raf_next s) (raf_queue s2)) s2).
Proof.
  intros Hreach Hd s.
  assert (Hf : handles_fresh s).
  { apply (handles_fresh_reachable pf).
    by apply (reachable_step pf s0 stopBtn_click). }
  destruct (stop_fields s0) as (Hrs & _ & Hds & _). fold s in Hrs, Hds.
  rewrite Hd in Hds.
  assert (Hsurf : surface (loop_resume pf result now (set_awaiting_detect n s))
                  = fst (drawBoxes pf (filtered (showAll_checked s0)
                                         (default [] result))
                           (drawBoxes_prev s0) now)) by reflexivity.
  clearbody s.
  exists (loop_resume pf result now (set_awaiting_detect n s)).
  assert (Hfresh : raf_next s ∉ raf_queue s).
  { destruct Hf as (_ & _ & Hlt). intros Hin. apply Hlt in Hin. lia. }
  assert (Hrm : raf_remove (raf_next s) (raf_queue s ++ [raf_next s])
                = raf_queue s).
  { unfold raf_remove. rewrite filter_app.
    fold (raf_remove (raf_next s) (raf_queue s)).
    rewrite raf_remove_fresh by done.
    rewrite filter_cons_False by (intros Hne; by apply Hne).
    by rewrite filter_nil, app_nil_r. }
  split; [|split; [|split; [|split; [|split; [|split; [|split]]]]]].
  - destruct result; simpl; by rewrite Hds.
  - unfold loop_resume. by state_simpl.
  - exact Hsurf.
  - rewrite Hsurf. unfold drawBoxes, draw_fps. cbn [fst].
    intros Hnil. apply app_eq_nil in Hnil as [_ Hnil]. discriminate Hnil.
  - unfold loop_resume. by state_simpl.
  - unfold loop_resume. by state_simpl.
  - unfold step, loop_resume. state_simpl.
    rewrite bool_decide_eq_true_2
      by (apply elem_of_app; right; by apply list_elem_of_singleton).
    unfold loop. state_simpl. by rewrite Hrs, Hrm.
  - intros s2 Hr2 Hin. unfold step.
    rewrite bool_decide_eq_true_2 by done.
    unfold loop. state_simpl. by rewrite Hr2.
Qed.

Lemma stop_in_flight_cycle_dies_witness :
  let s := stopBtn_onclick first_cycle in
  ∃ s1,
    step pf0 s (detect_settled (Some [knife; person]) 16) = Some s1 ∧
    running s1 = false ∧
    surface s1
    = fst (drawBoxes pf0
             (filtered (showAll_checked first_cycle)
                (default [] (Some [knife; person])))
             (drawBoxes_prev first_cycle) 16) ∧
    surface s1 ≠ [] ∧
    raf_queue s1 = raf_queue s ++ [raf_next s] ∧
    rafId s1 = Some (raf_next s) ∧
    step pf0 s1 (animation_frame (raf_next s))
      = Some (set_raf_queue (raf_queue s) s1) ∧
    ∀ s2, running s2 = false → raf_next s ∈ raf_queue s2 →
          step pf0 s2 (animation_frame (raf_next s))
          = Some (set_raf_queue (raf_remove (raf_next s) (raf_queue s2)) s2).
Proof.
  apply (stop_in_flight_cycle_dies pf0 first_cycle 0 (Some [knife; person]) 16).
  - apply first_cycle_reachable.
  - reflexivity.
Defined.

(** C1, counterexample. On [page0]: the model loads, start() gets stream 7
    and playback begins, so the first cycle is suspended at the detector;
    stop() then empties the schedule; when the detector call resolves, the
    cycle puts callback 1 on the queue although running is false. *)
Lemma stop_outrun_by_in_flight_cycle :
  ∃ s1,
    reachable pf0 first_cycle ∧
    awaiting_detect first_cycle = 1 ∧
    running (stopBtn_onclick first_cycle) = false ∧
    raf_queue (stopBtn_onclick first_cycle) = [] ∧
    step pf0 (stopBtn_onclick first_cycle) (detect_resolved [] 16) = Some s1 ∧
    running s1 = false ∧ raf_queue s1 = [1] ∧ rafId s1 = Some 1.
Proof.
  eexists. split; [apply first_cycle_reachable|].
  vm_compute. repeat split.
Qed.

(** C2, as amended. In every state reached from the initial page by runs in
    which start() is not clicked while running, while another start() is in
    flight or while a frame cycle is still outstanding, and stop() is not
    clicked while a start() is in flight: while running is true the stream
    is non-null and exactly one frame cycle is outstanding (a pending frame
    callback, or a cycle suspended at the detector call); while running is
    false at most one frame cycle is outstanding. *)
Theorem orderly_session_keeps_invariant pf s0 evs s :
  initial s0 → run_orderly pf s0 evs = Some s →
  (running s = true → stream s ≠ None ∧ outstanding s = 1) ∧
  (running s = false → outstanding s ≤ 1).
Proof.
  intros Hi Hr. apply orderly_session_invariant.
  eapply orderly_invariant_run; [|exact Hr].
  by apply orderly_invariant_initial.
Qed.

Lemma orderly_session_keeps_invariant_witness :
  (running orderly_end = true →
   stream orderly_end ≠ None ∧ outstanding orderly_end = 1) ∧
  (running orderly_end = false → outstanding orderly_end ≤ 1).
Proof.
  apply (orderly_session_keeps_invariant pf0 page0 orderly_events).
  - apply page0_initial.
  - vm_compute. reflexivity.
Defined.

(** C2, counterexample. Two reachable states break the invariant as the
    specification words it: after start() got stream 7 and playback was
    rejected, running is false and the stream is still 7 (the catch does
    not release it); after stop() overtook the first cycle and its detector
    call resolved, running is false and frame callback 1 is pending. *)
Lemma spec_session_invariant_fails :
  (reachable pf0 play_failed ∧
   running play_failed = false ∧ stream play_failed = Some 7 ∧
   ¬ spec_session_invariant play_failed) ∧
  (reachable pf0 overtaken ∧
   running overtaken = false ∧ raf_queue overtaken = [1] ∧
   ¬ spec_session_invariant overtaken).
Proof.
  split.
  - split; [|repeat split].
    + exists page0, [load_resolved; startBtn_click; getUserMedia_resolved 7;
                     play_rejected].
      split; [apply page0_initial | vm_compute; reflexivity].
    + intros [_ H]. by destruct (H eq_refl).
  - split; [|repeat split].
    + exists page0, overtaken_events.
      split; [apply page0_initial | vm_compute; reflexivity].
    + intros [_ H]. by destruct (H eq_refl).
Qed.

(** C3, as amended. stop() from Idle (not running, no stream, nothing
    scheduled) leaves the running flag, the stream, the schedule and all
    pending work as they are, and the page is still Idle; it does clear the
    surface, reset the two buttons and set the status to Camera stopped.
    A second stop() changes nothing more. *)
Theorem stop_from_Idle s :
  Idle s →
  stopBtn_onclick s = stopped_from_idle s ∧
  Idle (stopBtn_onclick s) ∧
  stopBtn_onclick (stopBtn_onclick s) = stopBtn_onclick s.
Proof.
  intros (Hr & Hst & Hq). split; [|split].
  - apply State_ext; unfold stopBtn_onclick, stopped_from_idle; cbn;
      rewrite ?Hst, ?Hq, ?Hr; try reflexivity.
    by destruct (rafId s) as [[|id]|].
  - unfold stopBtn_onclick, Idle. state_simpl.
    rewrite Hq. by destruct (rafId s) as [[|id]|].
  - apply stop_idempotent.
Qed.

Lemma stop_from_Idle_witness :
  stopBtn_onclick model_loaded = stopped_from_idle model_loaded ∧
  Idle (stopBtn_onclick model_loaded) ∧
  stopBtn_onclick (stopBtn_onclick model_loaded) = stopBtn_onclick model_loaded.
Proof.
  apply (stop_from_Idle model_loaded). repeat split.
Defined.

(** C3, counterexample. With the model loaded and nothing started the page
    is Idle, and stop() replaces the status text, so it is not a no-op.
    Issued while start() holds stream 7 and waits for playback, stop()
    releases the stream but not the start: when playback begins the page
    goes to running, without a stream. *)
Lemma stop_from_Idle_is_not_a_noop :
  (reachable pf0 model_loaded ∧ Idle model_loaded ∧
   status model_loaded = "Model loaded. Click “Start Camera”." ∧
   status (stopBtn_onclick model_loaded) = "Camera stopped." ∧
   stopBtn_onclick model_loaded ≠ model_loaded) ∧
  (∃ s, reachable pf0 start_in_flight ∧
        running start_in_flight = false ∧ stream start_in_flight = Some 7 ∧
        stream (stopBtn_onclick start_in_flight) = None ∧
        step pf0 (stopBtn_onclick start_in_flight) (play_resolved 640 480)
          = Some s ∧
        running s = true ∧ stream s = None).
Proof.
  split.
  - split; [|repeat split].
    + exists page0, [load_resolved].
      split; [apply page0_initial | vm_compute; reflexivity].
    + intros H. apply (f_equal status) in H. discriminate H.
  - eexists. split; [|repeat split].
    exists page0, [load_resolved; startBtn_click; getUserMedia_resolved 7].
    split; [apply page0_initial | vm_compute; reflexivity].
Qed.

(** C6. While the model is not loaded, a click on start only sets the
    status to the still-loading message: every other part of the state is
    unchanged, no stream is requested, and the page is Idle with no start
    or frame cycle pending, before and after. *)
Theorem start_before_model_loaded pf s :
  reachable pf s → model s = None →
  step pf s startBtn_click = Some (set_status "Still loading model…" s) ∧
  Idle s ∧ Idle (set_status "Still loading model…" s) ∧
  starting s = 0 ∧ outstanding s = 0.
Proof.
  intros Hreach Hm.
  destruct (unloaded_quiet_reachable pf s Hreach Hm)
    as (Hr & Hst & _ & Hq & Hg & Hp & Hd).
  unfold Idle, starting, outstanding. simpl.
  unfold startBtn_onclick. rewrite Hm, Hr, Hst, Hq, Hg, Hp, Hd. done.
Qed.

Lemma start_before_model_loaded_witness :
  step pf0 page0 startBtn_click
    = Some (set_status "Still loading model…" page0) ∧
  Idle page0 ∧ Idle (set_status "Still loading model…" page0) ∧
  starting page0 = 0 ∧ outstanding page0 = 0.
Proof.
  apply (start_before_model_loaded pf0 page0).
  - apply reachable_initial, page0_initial.
  - reflexivity.
Defined.

(** C7. When the detector call of a running session's frame cycle rejects,
    the cycle goes on as if it had resolved to no predictions (only the
    error is logged): it draws the FPS corner and no box, running, stream
    and model are unchanged, and the next frame callback is scheduled.
    When that callback runs, a fresh detector call is in flight, and it
    can settle either way. *)
Theorem detect_failure_recovers pf s n now :
  running s = true → awaiting_detect s = S n →
  ∃ s1 s2,
    step pf s (detect_rejected now) = Some s1 ∧
    step pf s (detect_resolved [] now)
      = Some (set_console_errors (console_errors s) s1) ∧
    console_errors s1 = S (console_errors s) ∧
    surface s1 = surface s ++ draw_fps pf (drawBoxes_prev s) now ∧
    running s1 = true ∧ stream s1 = stream s ∧ model s1 = model s ∧
    raf_queue s1 = raf_queue s ++ [raf_next s] ∧
    step pf s1 (animation_frame (raf_next s)) = Some s2 ∧
    running s2 = true ∧ awaiting_detect s2 = S (awaiting_detect s1) ∧
    ∀ r now', is_Some (step pf s2 (detect_settled r now')).
Proof.
  intros Hr Hd.
  set (s1 := loop_resume pf None now (set_awaiting_detect n s)).
  exists s1, (loop (set_raf_queue (raf_remove (raf_next s) (raf_queue s1)) s1)).
  assert (Hempty : ∀ b, filtered b [] = []) by (by intros []).
  split; [cbn; by rewrite Hd|].
  split.
  { cbn. rewrite Hd. reflexivity. }
  subst s1. unfold loop_resume. state_simpl. rewrite Hempty. cbn.
  do 6 (split; [done|]).
  rewrite bool_decide_eq_true_2
    by (apply elem_of_app; right; by apply list_elem_of_singleton).
  unfold loop. state_simpl. rewrite Hr. state_simpl.
  split; [reflexivity|]. split; [done|]. split; [done|].
  intros [ps|] now'; cbn; eauto.
Qed.

Lemma detect_failure_recovers_witness :
  ∃ s1 s2,
    step pf0 first_cycle (detect_rejected 16) = Some s1 ∧
    step pf0 first_cycle (detect_resolved [] 16)
      = Some (set_console_errors (console_errors first_cycle) s1) ∧
    console_errors s1 = S (console_errors first_cycle) ∧
    surface s1
      = surface first_cycle ++ draw_fps pf0 (drawBoxes_prev first_cycle) 16 ∧
    running s1 = true ∧ stream s1 = stream first_cycle ∧
    model s1 = model first_cycle ∧
    raf_queue s1 = raf_queue first_cycle ++ [raf_next first_cycle] ∧
    step pf0 s1 (animation_frame (raf_next first_cycle)) = Some s2 ∧
    running s2 = true ∧ awaiting_detect s2 = S (awaiting_detect s1) ∧
    ∀ r now', is_Some (step pf0 s2 (detect_settled r now')).
Proof.
  apply (detect_failure_recovers pf0 first_cycle 0 16); reflexivity.
Defined.

(** ** The annotator: filtering *)

Lemma DANGEROUS_labels (c : string) :
  c ∈ DANGEROUS ↔ c = "knife" ∨ c = "scissors" ∨ c = "baseball bat".
Proof.
  unfold DANGEROUS. rewrite !elem_of_union, !elem_of_singleton. tauto.
Qed.

(** C4. With show-all unchecked the filter returns exactly the predictions
    whose class is knife, scissors or baseball bat: an element is in the
    result iff it is in the input with such a class; the result is the
    input with elements left out, in the input's order; and filtering a
    concatenation is concatenating the filtered parts, so no qualifying
    occurrence is lost or repeated. *)
Theorem filtered_dangerous_only (P : list Prediction) :
  (∀ p, p ∈ filtered false P ↔
        p ∈ P ∧ (class p = "knife" ∨ class p = "scissors"
                 ∨ class p = "baseball bat")) ∧
  filtered false P `sublist_of` P ∧
  (∀ P1 P2, P = P1 ++ P2 →
            filtered false P = filtered false P1 ++ filtered false P2) ∧
  (∀ p, filtered false [p]
        = if DANGEROUS_has (class p) then [p] else []).
Proof.
  unfold filtered. split; [|split; [|split]].
  - intros p. rewrite list_elem_of_filter, DANGEROUS_labels. tauto.
  - apply sublist_filter.
  - intros P1 P2 ->. apply filter_app.
  - intros p. unfold DANGEROUS_has. rewrite filter_cons, filter_nil.
    destruct (decide (class p ∈ DANGEROUS)) as [Hd|Hd].
    + by rewrite bool_decide_eq_true_2.
    + by rewrite bool_decide_eq_false_2.
Qed.

(** C5. With show-all checked the filter returns its input unchanged, and
    in either mode filtering twice is filtering once. *)
Theorem filtered_identity_and_idempotent (P : list Prediction) :
  filtered true P = P ∧
  ∀ m, filtered m (filtered m P) = filtered m P.
Proof.
  split; [reflexivity|]. intros [|]; [reflexivity|].
  unfold filtered. apply list_filter_filter_l. done.
Qed.

(** ** Numbers: comparison, the clamp and the zero delta *)

Section Numbers.

Local Open Scope float_scope.

Lemma SFcompare_antisym x y c :
  SFcompare x y = Some c → SFcompare y x = Some (CompOpp c).
Proof.
  destruct x as [sx|sx| |sx mx ex], y as [sy|sy| |sy my ey]; simpl;
    try discriminate; intros [= <-];
    try (by destruct sx); try (by destruct sy); try (by destruct sx, sy).
  f_equal. rewrite (Z.compare_antisym ex ey).
  pose proof (Pos.compare_cont_antisym mx my Eq) as Hp. simpl in Hp.
  destruct sx, sy; simpl; try reflexivity;
    destruct (ex ?= ey)%Z; simpl; try reflexivity;
    rewrite <- Hp; by rewrite ?CompOpp_involutive.
Qed.

Lemma leb_compare x y :
  (x <=? y) = true → (y ?= x) = FGt ∨ (y ?= x) = FEq.
Proof.
  rewrite FloatAxioms.leb_spec, FloatAxioms.compare_spec. unfold SFleb.
  destruct (SFcompare (Prim2SF x) (Prim2SF y)) as [c|] eqn:E; [|done].
  apply SFcompare_antisym in E. rewrite E.
  destruct c; simpl; intros; try done; auto.
Qed.

Lemma ltb_compare x y : (x <? y) = true → (x ?= y) = FLt.
Proof.
  rewrite FloatAxioms.ltb_spec, FloatAxioms.compare_spec. unfold SFltb.
  by destruct (SFcompare (Prim2SF x) (Prim2SF y)) as [[]|].
Qed.

(** The clamp of the FPS estimate: a delta of at most 1 ms counts as 1. *)
Lemma Math_max_1_le d : (d <=? 1) = true → JS.Math_max 1 d = 1.
Proof.
  intros H. unfold JS.Math_max.
  by destruct (leb_compare d 1 H) as [-> | ->].
Qed.

Lemma Math_max_lt a d : (a <? d) = true → JS.Math_max a d = d.
Proof. intros H. unfold JS.Math_max. by rewrite (ltb_compare a d H). Qed.

(** A finite number minus itself is [+0]. *)
Lemma sub_diag_finite x : JS.is_finite x = true → x - x = 0.
Proof.
  unfold JS.is_finite. intros H.
  rewrite <- (FloatAxioms.SF2Prim_Prim2SF (x - x)), FloatAxioms.sub_spec.
  destruct (Prim2SF x) as [s|s| |s m e]; try discriminate H.
  - by destruct s.
  - unfold SF64sub, SFsub. cbv zeta. rewrite Z.sub_diag. reflexivity.
Qed.

End Numbers.

(** ** The annotator: the FPS corner *)

(** What [drawBoxes] shows last is the FPS text. *)
Lemma drawBoxes_shown pf preds prev now :
  last (fst (drawBoxes pf preds prev now))
  = Some (fillText (fps_text pf prev now) 16 26).
Proof.
  unfold drawBoxes, draw_fps. cbn [fst].
  rewrite last_app. reflexivity.
Qed.

(** C8. The FPS shown by a call of drawBoxes at time [t2] that follows a
    call at a non-zero time [t1] depends on the delta [t2 - t1] alone,
    whatever was shown before: it is 1000 / delta when delta is above 1
    (the raw reciprocal, in frames per second), and 1000 when delta is at
    most 1 (the clamp), printed with one decimal. 500 ms after the
    previous call the text reads ~2.0 FPS; half a millisecond after it
    would read ~1000.0 FPS, not ~2000.0 FPS. *)
Theorem fps_is_clamped_reciprocal pf preds1 preds2 prev0 t1 t2 :
  JS.truthy t1 = true →
  let delta := (t2 - t1)%float in
  let prev1 := snd (drawBoxes pf preds1 prev0 t1) in
  let shown := last (fst (drawBoxes pf preds2 prev1 t2)) in
  shown = Some (fillText
                  ("~" +:+ JS.toFixed (Number_toString_big pf) 1
                             (fps prev1 t2) +:+ " FPS") 16 26) ∧
  ((1 <? delta)%float = true → fps prev1 t2 = (1000 / delta)%float) ∧
  ((delta <=? 1)%float = true →
   fps prev1 t2 = 1000%float ∧ shown = Some (fillText "~1000.0 FPS" 16 26)) ∧
  (delta = 500%float → shown = Some (fillText "~2.0 FPS" 16 26)).
Proof.
  intros Ht delta prev1 shown.
  assert (Hfps : fps prev1 t2 = (1000 / JS.Math_max 1 delta)%float).
  { subst prev1 delta. unfold fps, prev_or_now. cbn [snd drawBoxes].
    by rewrite Ht. }
  assert (Hshown : shown = Some (fillText
                  ("~" +:+ JS.toFixed (Number_toString_big pf) 1
                             (fps prev1 t2) +:+ " FPS") 16 26)).
  { subst shown. by rewrite drawBoxes_shown. }
  split; [exact Hshown|]. split; [|split].
  - intros Hlt. by rewrite Hfps, (Math_max_lt 1 delta Hlt).
  - intros Hle. rewrite Hshown, Hfps, (Math_max_1_le delta Hle).
    split; vm_compute; reflexivity.
  - intros Hd. rewrite Hshown, Hfps, Hd. vm_compute. reflexivity.
Qed.

Lemma fps_is_clamped_reciprocal_witness :
  (last (fst (drawBoxes pf0 [knife]
                (snd (drawBoxes pf0 [knife; person] None 100)) 600))
   = Some (fillText "~2.0 FPS" 16 26) ∧
   fps (snd (drawBoxes pf0 [knife; person] None 100)) 600
   = (1000 / (600 - 100))%float) ∧
  (last (fst (drawBoxes pf0 [knife]
                (snd (drawBoxes pf0 [knife; person] None 100)) 0x1.92p+6))
   = Some (fillText "~1000.0 FPS" 16 26)).
Proof.
  split; [split|].
  - apply (fps_is_clamped_reciprocal pf0 [knife; person] [knife] None 100 600);
      reflexivity.
  - apply (fps_is_clamped_reciprocal pf0 [knife; person] [knife] None 100 600);
      reflexivity.
  - apply (fps_is_clamped_reciprocal pf0 [knife; person] [knife] None 100
             0x1.92p+6); reflexivity.
Defined.

(** C10. For a finite time [now]: on the first call of drawBoxes the stored
    time is undefined and is set to [now], the delta is 0, the clamp makes
    it 1 and the text reads ~1000.0 FPS; and on any call whose delta is at
    most 1 ms the estimate is 1000 and the text reads ~1000.0 FPS. *)
Theorem fps_reads_1000_when_delta_at_most_1 pf preds prev now :
  JS.is_finite now = true →
  let delta := (now - prev_or_now prev now)%float in
  let shown := last (fst (drawBoxes pf preds prev now)) in
  (prev = None →
   prev_or_now prev now = now ∧ delta = 0%float ∧
   JS.Math_max 1 delta = 1%float ∧
   shown = Some (fillText "~1000.0 FPS" 16 26) ∧
   snd (drawBoxes pf preds prev now) = Some now) ∧
  ((delta <=? 1)%float = true →
   fps prev now = 1000%float ∧
   shown = Some (fillText "~1000.0 FPS" 16 26)).
Proof.
  intros Hfin delta shown.
  assert (Hshort : (delta <=? 1)%float = true →
                   fps prev now = 1000%float ∧
                   shown = Some (fillText "~1000.0 FPS" 16 26)).
  { intros Hle. subst shown. rewrite drawBoxes_shown.
    unfold fps_text, fps. fold delta. rewrite (Math_max_1_le delta Hle).
    split; vm_compute; reflexivity. }
  split; [|exact Hshort].
  intros ->. cbn [prev_or_now] in *.
  assert (Hd : delta = 0%float) by (apply sub_diag_finite, Hfin).
  rewrite Hd in *. destruct Hshort as [_ Hs]; [reflexivity|].
  repeat split; done.
Qed.

Lemma fps_reads_1000_when_delta_at_most_1_witness :
  last (fst (drawBoxes pf0 [knife] None 16))
  = Some (fillText "~1000.0 FPS" 16 26) ∧
  last (fst (drawBoxes pf0 [knife] (Some 16%float) 0x1.1p+4))
  = Some (fillText "~1000.0 FPS" 16 26).
Proof.
  split.
  - apply (fps_reads_1000_when_delta_at_most_1 pf0 [knife] None 16);
      reflexivity.
  - apply (fps_reads_1000_when_delta_at_most_1 pf0 [knife] (Some 16%float)
             0x1.1p+4); reflexivity.
Defined.

(** ** The annotator: labels *)

Section Labels.

Lemma all_digits_app a b :
  JS.all_digits (a +:+ b) = JS.all_digits a && JS.all_digits b.
Proof.
  induction a as [|c a IH]; simpl; [done|].
  rewrite IH. by destruct (JS.is_digit c).
Qed.







End Labels.





(** ** More on the capture/render loop *)

Lemma reachable_run pf s evs s' :
  reachable pf s → run pf s evs = Some s' → reachable pf s'.
Proof.
  intros (s0 & evs0 & Hi & Hr) H. exists s0, (evs0 ++ evs). split; [done|].
  rewrite run_app, Hr. exact H.
Qed.

Lemma raf_remove_all a q :
  (∀ id, id ∈ q → id = a) → raf_remove a q = [].
Proof.
  unfold raf_remove. induction q as [|b q IH]; intros H; [done|].
  rewrite filter_cons_False.
  - apply IH. intros id Hid. apply H. by apply list_elem_of_further.
  - intros Hne. apply Hne, H, list_elem_of_here.
Qed.

Lemma raf_remove_length id q :
  NoDup q → id ∈ q → S (length (raf_remove id q)) = length q.
Proof.
  unfold raf_remove. induction q as [|b q IH]; intros Hnd Hin.
  - inversion Hin.
  - apply NoDup_cons in Hnd as [Hb Hnd].
    destruct (decide (b = id)) as [->|Hne].
    + rewrite filter_cons_False by (intros Hne; by apply Hne).
      fold (raf_remove id q). by rewrite (raf_remove_fresh id q Hb).
    + rewrite filter_cons_True by done. simpl. f_equal. apply IH; [done|].
      apply elem_of_cons in Hin as [->|Hin]; [done|done].
Qed.

(** X1. In an orderly session stop() leaves no frame callback pending,
    whatever was scheduled; the stream it held is among those whose tracks
    were stopped, the stream handle is null and the canvas is cleared. *)
Theorem stop_cancels_and_releases pf s0 evs s :
  initial s0 → run_orderly pf s0 evs = Some s →
  raf_queue (stopBtn_onclick s) = [] ∧
  stream (stopBtn_onclick s) = None ∧
  (∀ h, stream s = Some h → h ∈ stopped_streams (stopBtn_onclick s)) ∧
  surface (stopBtn_onclick s) = [] ∧
  running (stopBtn_onclick s) = false.
Proof.
  intros Hi Hr.
  assert (Hinv : orderly_invariant s).
  { eapply orderly_invariant_run; [|exact Hr].
    by apply orderly_invariant_initial. }
  destruct Hinv as (_ & _ & _ & _ & _ & _ & Hq).
  unfold stopBtn_onclick. cbn.
  split; [|split; [done|split; [|done]]].
  - destruct (raf_queue s) as [|a q] eqn:Eq.
    + by destruct (rafId s) as [[|id]|].
    + destruct (Hq a (list_elem_of_here a q)) as [Hr' Ha]. rewrite Hr'.
      destruct a as [|a]; [done|].
      apply raf_remove_all. intros id Hid.
      destruct (Hq id Hid) as [Hid' _]. congruence.
  - intros h ->. apply elem_of_app. right. apply list_elem_of_here.
Qed.

Lemma stop_cancels_and_releases_witness :
  (running frame_pending = true ∧ raf_queue frame_pending = [1] ∧
   stream frame_pending = Some 7 ∧ stopped_streams frame_pending = [] ∧
   surface frame_pending ≠ []) ∧
  raf_queue (stopBtn_onclick frame_pending) = [] ∧
  stream (stopBtn_onclick frame_pending) = None ∧
  7 ∈ stopped_streams (stopBtn_onclick frame_pending) ∧
  surface (stopBtn_onclick frame_pending) = [] ∧
  running (stopBtn_onclick frame_pending) = false.
Proof.
  assert (H : run_orderly pf0 page0 frame_pending_events = Some frame_pending)
    by (vm_compute; reflexivity).
  destruct (stop_cancels_and_releases pf0 page0 frame_pending_events
              frame_pending page0_initial H) as (Hq & Hs & Hrel & Hsf & Hr).
  split; [repeat split; done|].
  split; [exact Hq|]. split; [exact Hs|].
  split; [apply Hrel; reflexivity|]. split; [exact Hsf | exact Hr].
Defined.

(** X2. Nothing runs without the model: in every reachable state, if the
    page is running, holds a stream, has a start in flight or a frame
    cycle outstanding, then the model is loaded. So loop never calls
    detect on a null model. *)
Theorem activity_needs_model pf s :
  reachable pf s →
  running s = true ∨ stream s ≠ None ∨ 0 < starting s ∨ 0 < outstanding s →
  model s ≠ None.
Proof.
  intros Hreach Hact Hm.
  destruct (unloaded_quiet_reachable pf s Hreach Hm)
    as (Hr & Hst & _ & Hq & Hg & Hp & Hd).
  unfold starting, outstanding in Hact. rewrite Hq, Hg, Hp, Hd in Hact.
  simpl in Hact. destruct Hact as [H|[H|[H|H]]]; try lia; congruence.
Qed.

Lemma activity_needs_model_witness : model first_cycle ≠ None.
Proof.
  apply (activity_needs_model pf0 first_cycle).
  - apply first_cycle_reachable.
  - left. reflexivity.
Defined.

(** X3. Frame handles are safe to test for truth: in every reachable state
    the pending handles are distinct, none is 0 and all are below the next
    one to be handed out, and rafId is null or a non-zero handle, so
    [if (rafId)] never skips a handle that was stored. *)
Theorem handles_are_truthy pf s :
  reachable pf s →
  NoDup (raf_queue s) ∧
  (∀ id, id ∈ raf_queue s → id ≠ 0 ∧ id < raf_next s) ∧
  rafId s ≠ Some 0.
Proof.
  intros Hreach.
  destruct (handles_fresh_reachable pf s Hreach) as (_ & Hnd & Hlt).
  split; [done|]. split; [intros id Hid; apply Hlt in Hid; lia|].
  clear Hnd Hlt.
  enough (rafId s ≠ Some 0 ∧ 0 < raf_next s) as [H _] by done.
  revert s Hreach. apply reachable_ind.
  - intros s (_&_&_&Hr&_&_&_&_&_&_&_&_&Hn). rewrite Hr, Hn. split; [done|lia].
  - intros s e s' [IH Hn] H.
    step_cases H; handler_cases; split; try done; try lia;
      intros [= Heq]; lia.
Qed.

Lemma handles_are_truthy_witness :
  NoDup (raf_queue overtaken) ∧
  (∀ id, id ∈ raf_queue overtaken → id ≠ 0 ∧ id < raf_next overtaken) ∧
  rafId overtaken ≠ Some 0.
Proof.
  apply (handles_are_truthy pf0 overtaken).
  exists page0, overtaken_events.
  split; [apply page0_initial | vm_compute; reflexivity].
Defined.

(** X4. A refused camera changes nothing but the message: with the model
    loaded, a click on start followed by the rejection of getUserMedia
    leaves the state as it was, except that the error is logged and the
    status says the camera could not be accessed; start can be clicked
    again. *)
Theorem camera_refused_changes_only_status pf s d :
  model s = Some d →
  run pf s [startBtn_click; getUserMedia_rejected]
  = Some (set_status "Could not access camera. Check permissions."
            (set_console_errors (S (console_errors s)) s)) ∧
  ∃ s', run pf s [startBtn_click; getUserMedia_rejected; startBtn_click]
        = Some s' ∧
        awaiting_getUserMedia s' = S (awaiting_getUserMedia s).
Proof.
  intros Hm. cbn. unfold startBtn_onclick. rewrite Hm. cbn.
  split; [reflexivity|]. rewrite Hm. eexists. split; reflexivity.
Qed.

Lemma camera_refused_changes_only_status_witness :
  run pf0 model_loaded [startBtn_click; getUserMedia_rejected]
  = Some (set_status "Could not access camera. Check permissions."
            (set_console_errors (S (console_errors model_loaded))
               model_loaded)) ∧
  ∃ s', run pf0 model_loaded
          [startBtn_click; getUserMedia_rejected; startBtn_click] = Some s' ∧
        awaiting_getUserMedia s' = S (awaiting_getUserMedia model_loaded).
Proof.
  apply (camera_refused_changes_only_status pf0 model_loaded lite_mobilenet_v2).
  reflexivity.
Defined.

(** X5. When playback is rejected after the stream was obtained, the catch
    reports the failure but does not release the camera: the stream handle
    stays set, the video keeps it as source, and no track is stopped. *)
Theorem play_failure_keeps_stream pf s d h :
  model s = Some d →
  ∃ s', run pf s [startBtn_click; getUserMedia_resolved h; play_rejected]
        = Some s' ∧
        stream s' = Some h ∧ video_srcObject s' = Some h ∧
        stopped_streams s' = stopped_streams s ∧
        running s' = running s ∧
        status s' = "Could not access camera. Check permissions."%string.
Proof.
  intros Hm. cbn. unfold startBtn_onclick. rewrite Hm. cbn.
  eexists. split; [reflexivity|]. cbn. done.
Qed.

Lemma play_failure_keeps_stream_witness :
  ∃ s', run pf0 model_loaded
          [startBtn_click; getUserMedia_resolved 7; play_rejected] = Some s' ∧
        stream s' = Some 7 ∧ video_srcObject s' = Some 7 ∧
        stopped_streams s' = stopped_streams model_loaded ∧
        running s' = running model_loaded ∧
        status s' = "Could not access camera. Check permissions."%string.
Proof.
  apply (play_failure_keeps_stream pf0 model_loaded lite_mobilenet_v2 7).
  reflexivity.
Defined.

(** X6. A start that goes through: with the model loaded, start, the
    stream h and the beginning of playback leave the page running with
    stream h bound to the video, the canvas sized to the video (1280 or
    720 for a dimension reported as 0), start disabled and stop enabled,
    the running status shown, the canvas holding just the first video
    frame, and one more detector call in flight. *)
Theorem start_goes_through pf s d h vw vh :
  model s = Some d →
  ∃ s', run pf s [startBtn_click; getUserMedia_resolved h;
                  play_resolved vw vh] = Some s' ∧
        running s' = true ∧ stream s' = Some h ∧
        video_srcObject s' = Some h ∧
        canvas_width s' = (if (vw =? 0)%N then 1280%N else vw) ∧
        canvas_height s' = (if (vh =? 0)%N then 720%N else vh) ∧
        surface s' = [drawImage (canvas_width s') (canvas_height s')] ∧
        startBtn_disabled s' = true ∧ stopBtn_disabled s' = false ∧
        status s' = "Camera running. Detecting…"%string ∧
        awaiting_detect s' = S (awaiting_detect s) ∧
        raf_queue s' = raf_queue s.
Proof.
  intros Hm. cbn. unfold startBtn_onclick. rewrite Hm. cbn.
  eexists. split; [reflexivity|]. cbn. repeat split.
Qed.

Lemma start_goes_through_witness :
  ∃ s', run pf0 model_loaded [startBtn_click; getUserMedia_resolved 7;
                              play_resolved 0 480] = Some s' ∧
        running s' = true ∧ stream s' = Some 7 ∧
        video_srcObject s' = Some 7 ∧
        canvas_width s' = (if (0 =? 0)%N then 1280%N else 0%N) ∧
        canvas_height s' = (if (480 =? 0)%N then 720%N else 480%N) ∧
        surface s' = [drawImage (canvas_width s') (canvas_height s')] ∧
        startBtn_disabled s' = true ∧ stopBtn_disabled s' = false ∧
        status s' = "Camera running. Detecting…"%string ∧
        awaiting_detect s' = S (awaiting_detect model_loaded) ∧
        raf_queue s' = raf_queue model_loaded.
Proof.
  apply (start_goes_through pf0 model_loaded lite_mobilenet_v2 7 0 480).
  reflexivity.
Defined.

(** X7. Drawing after stop: when stop() runs while a detector call is in
    flight and the call then settles, the boxes of that frame and the FPS
    corner are drawn on the canvas stop() had cleared. The canvas is then
    not empty: it holds exactly that drawing, ending with the FPS text. *)
Theorem overtaken_cycle_draws_after_stop pf s0 n result now :
  awaiting_detect s0 = S n →
  ∃ s1,
    step pf (stopBtn_onclick s0) (detect_settled result now) = Some s1 ∧
    surface (stopBtn_onclick s0) = [] ∧
    surface s1
    = fst (drawBoxes pf (filtered (showAll_checked s0) (default [] result))
             (drawBoxes_prev s0) now) ∧
    surface s1 ≠ [] ∧
    last (surface s1)
    = Some (fillText (fps_text pf (drawBoxes_prev s0) now) 16 26).
Proof.
  intros Hd.
  exists (loop_resume pf result now
            (set_awaiting_detect n (stopBtn_onclick s0))).
  split.
  { destruct result; cbn; rewrite Hd; reflexivity. }
  split; [reflexivity|].
  assert (Hs : surface (loop_resume pf result now
                          (set_awaiting_detect n (stopBtn_onclick s0)))
               = fst (drawBoxes pf (filtered (showAll_checked s0)
                                      (default [] result))
                        (drawBoxes_prev s0) now)) by reflexivity.
  rewrite Hs. split; [done|]. split; [|apply drawBoxes_shown].
  intros Hnil. pose proof (drawBoxes_shown pf
    (filtered (showAll_checked s0) (default [] result))
    (drawBoxes_prev s0) now) as Hl.
  rewrite Hnil in Hl. discriminate Hl.
Qed.

Lemma overtaken_cycle_draws_after_stop_witness :
  ∃ s1,
    step pf0 (stopBtn_onclick first_cycle)
      (detect_settled (Some [knife; person]) 16) = Some s1 ∧
    surface (stopBtn_onclick first_cycle) = [] ∧
    surface s1
    = fst (drawBoxes pf0
             (filtered (showAll_checked first_cycle)
                (default [] (Some [knife; person])))
             (drawBoxes_prev first_cycle) 16) ∧
    surface s1 ≠ [] ∧
    last (surface s1)
    = Some (fillText (fps_text pf0 (drawBoxes_prev first_cycle) 16) 16 26).
Proof.
  apply (overtaken_cycle_draws_after_stop pf0 first_cycle 0
           (Some [knife; person]) 16).
  reflexivity.
Defined.

(** X8. Start is not guarded against a second click: with the model
    loaded, two clicks on start before the first one is through end with
    two more detector calls in flight (two frame loops), with the second
    stream in the stream handle and the first stream neither held nor
    stopped. *)
Theorem double_start_runs_two_loops pf s d h1 h2 vw vh :
  model s = Some d →
  ∃ s', run pf s (double_start_events h1 h2 vw vh) = Some s' ∧
        running s' = true ∧
        outstanding s' = S (S (outstanding s)) ∧
        stream s' = Some h2 ∧
        stopped_streams s' = stopped_streams s.
Proof.
  intros Hm. unfold double_start_events, outstanding. cbn.
  unfold startBtn_onclick. rewrite Hm. cbn. rewrite Hm. cbn.
  eexists. split; [reflexivity|]. cbn. repeat split. lia.
Qed.

Lemma double_start_runs_two_loops_witness :
  ∃ s', run pf0 model_loaded (double_start_events 7 8 640 480) = Some s' ∧
        running s' = true ∧
        outstanding s' = S (S (outstanding model_loaded)) ∧
        stream s' = Some 8 ∧
        stopped_streams s' = stopped_streams model_loaded.
Proof.
  apply (double_start_runs_two_loops pf0 model_loaded lite_mobilenet_v2
           7 8 640 480).
  reflexivity.
Defined.

(** X9. Frame cycles do not multiply by themselves. From a reachable state,
    a step changes the number of outstanding frame cycles (pending
    callbacks plus detector calls in flight) only as follows: the beginning
    of playback adds one; a frame callback keeps the number while running
    and takes one away otherwise; stop() never adds; every other event,
    the settlement of a detector call included, keeps it. *)
Theorem cycles_are_conserved pf s e s' :
  reachable pf s → step pf s e = Some s' → cycles_after e s s'.
Proof.
  intros Hreach H.
  destruct (handles_fresh_reachable pf s Hreach) as (_ & Hnd & _).
  unfold cycles_after, outstanding.
  destruct e; cbn in H.
  - destruct (load_pending s); [|done]. by injection H as <-.
  - destruct (load_pending s); [|done]. by injection H as <-.
  - injection H as <-. unfold startBtn_onclick. by destruct (model s).
  - injection H as <-. unfold stopBtn_onclick. cbn.
    destruct (rafId s) as [[|id]|]; try lia.
    pose proof (length_filter (λ j, j ≠ S id) (raf_queue s)) as Hl.
    unfold raf_remove. lia.
  - by injection H as <-.
  - destruct (awaiting_getUserMedia s); [done|]. by injection H as <-.
  - destruct (awaiting_getUserMedia s); [done|]. by injection H as <-.
  - destruct (awaiting_play s); [done|]. injection H as <-. cbn. lia.
  - destruct (awaiting_play s); [done|]. by injection H as <-.
  - destruct (awaiting_detect s) eqn:Ed; [done|]. injection H as <-. cbn.
    rewrite length_app. simpl. lia.
  - destruct (awaiting_detect s) eqn:Ed; [done|]. injection H as <-. cbn.
    rewrite length_app. simpl. lia.
  - destruct (bool_decide (id ∈ raf_queue s)) eqn:Ein; [|done].
    apply bool_decide_eq_true in Ein. injection H as <-.
    pose proof (raf_remove_length id (raf_queue s) Hnd Ein) as Hl.
    unfold loop. cbn. destruct (running s); cbn; lia.
Qed.

Lemma cycles_are_conserved_witness :
  cycles_after (detect_resolved [knife] 16) first_cycle
    (loop_resume pf0 (Some [knife]) 16 (set_awaiting_detect 0 first_cycle)).
Proof.
  apply (cycles_are_conserved pf0 first_cycle (detect_resolved [knife] 16)).
  - apply first_cycle_reachable.
  - reflexivity.
Defined.

Lemma model_stays_null pf s evs s' :
  model s = None → load_pending s = false → run pf s evs = Some s' →
  model s' = None ∧ load_pending s' = false.
Proof.
  revert s. induction evs as [|e evs IH]; intros s Hm Hl Hr; cbn in Hr.
  - by injection Hr as <-.
  - destruct (step pf s e) as [s1|] eqn:Es; [|done].
    apply (IH s1); [| |done];
      step_cases Es; handler_cases; congruence.
Qed.

Lemma pending_load_no_model pf s :
  reachable pf s → load_pending s = true → model s = None.
Proof.
  revert s.
  apply (reachable_ind pf (λ s, load_pending s = true → model s = None)).
  - by intros s (Hm & _).
  - intros s e s' IH H.
    step_cases H; handler_cases; intros Hl; try discriminate Hl;
      try congruence; specialize (IH Hl); congruence.
Qed.

(** X10. A failed model load is final. Once the load of the model has been
    rejected, whatever happens afterwards the model stays null, the page
    never runs, never holds a stream and has no frame cycle outstanding,
    and every click on start only shows the still-loading message. *)
Theorem load_failure_is_final pf s s1 evs s' :
  reachable pf s → step pf s load_rejected = Some s1 →
  run pf s1 evs = Some s' →
  model s' = None ∧ running s' = false ∧ stream s' = None ∧
  outstanding s' = 0 ∧
  step pf s' startBtn_click = Some (set_status "Still loading model…" s').
Proof.
  intros Hreach Hs Hr.
  assert (Hm1 : model s1 = None ∧ load_pending s1 = false).
  { cbn in Hs. destruct (load_pending s) eqn:El; [|done].
    injection Hs as <-. cbn. split; [|done].
    by apply (pending_load_no_model pf). }
  destruct Hm1 as [Hm1 Hl1].
  destruct (model_stays_null pf s1 evs s' Hm1 Hl1 Hr) as [Hm' _].
  assert (Hreach' : reachable pf s').
  { eapply reachable_run; [|exact Hr]. eapply reachable_step; eauto. }
  destruct (unloaded_quiet_reachable pf s' Hreach' Hm')
    as (Hrun & Hst & _ & Hq & _ & _ & Hd).
  unfold outstanding. rewrite Hq, Hd. repeat split; try done.
  cbn. unfold startBtn_onclick. by rewrite Hm'.
Qed.

Lemma load_failure_is_final_witness :
  model (stopBtn_onclick (startBtn_onclick (load_catch page0))) = None ∧
  running (stopBtn_onclick (startBtn_onclick (load_catch page0))) = false ∧
  stream (stopBtn_onclick (startBtn_onclick (load_catch page0))) = None ∧
  outstanding (stopBtn_onclick (startBtn_onclick (load_catch page0))) = 0 ∧
  step pf0 (stopBtn_onclick (startBtn_onclick (load_catch page0)))
    startBtn_click
  = Some (set_status "Still loading model…"
            (stopBtn_onclick (startBtn_onclick (load_catch page0)))).
Proof.
  apply (load_failure_is_final pf0 page0 (load_catch page0)
           [startBtn_click; stopBtn_click]).
  - apply reachable_initial, page0_initial.
  - reflexivity.
  - reflexivity.
Defined.

(** ** More on the annotator *)

Lemma draw_one_read pf p :
  Surface.strokes (draw_one pf p) = [bbox p] ∧
  Surface.texts (draw_one pf p) = [label pf p] ∧
  Surface.stroke_styles (draw_one pf p)
  = [if DANGEROUS_has (class p) then "#f87171" else "#7dd3fc"]%string ∧
  Surface.line_widths (draw_one pf p)
  = [if DANGEROUS_has (class p) then 4 else 2]%float ∧
  length (draw_one pf p) = 8.
Proof.
  unfold draw_one. destruct (bbox p) as [[[x y] w] h]. repeat split.
Qed.

Lemma draw_all_read pf preds :
  let ops := concat (map (draw_one pf) preds) in
  Surface.strokes ops = map bbox preds ∧
  Surface.texts ops = map (label pf) preds ∧
  Surface.stroke_styles ops
  = map (λ p, if DANGEROUS_has (class p) then "#f87171" else "#7dd3fc")%string
      preds ∧
  Surface.line_widths ops
  = map (λ p, if DANGEROUS_has (class p) then 4 else 2)%float preds ∧
  length ops = 8 * length preds.
Proof.
  induction preds as [|p preds IH]; [done|].
  cbn zeta in *. cbn [map concat].
  destruct IH as (H1 & H2 & H3 & H4 & H5).
  destruct (draw_one_read pf p) as (D1 & D2 & D3 & D4 & D5).
  unfold Surface.strokes, Surface.texts, Surface.stroke_styles,
    Surface.line_widths in *.
  rewrite !omap_app, length_app, H1, H2, H3, H4, H5, D1, D2, D3, D4, D5.
  repeat split. simpl. lia.
Qed.

(** X11. drawBoxes draws one box and one label per prediction, in the order
    of the predictions, and then the FPS text: the rectangles stroked are
    the predictions' bounding boxes in order, and the texts filled are
    their labels in order followed by the FPS text. An empty list draws
    the FPS corner alone. *)
Theorem drawBoxes_one_box_per_prediction pf preds prev now :
  Surface.strokes (fst (drawBoxes pf preds prev now)) = map bbox preds ∧
  Surface.texts (fst (drawBoxes pf preds prev now))
  = map (label pf) preds ++ [fps_text pf prev now] ∧
  fst (drawBoxes pf [] prev now) = draw_fps pf prev now.
Proof.
  destruct (draw_all_read pf preds) as (H1 & H2 & _).
  unfold drawBoxes. cbn [fst].
  unfold Surface.strokes, Surface.texts in *.
  rewrite !omap_app, H1, H2.
  repeat split. by rewrite app_nil_r.
Qed.

(** X12. Each box's colour and thickness follow its class: the warning
    colour #f87171 with width 4 for knife, scissors and baseball bat, the
    neutral colour #7dd3fc with width 2 for anything else. With show-all
    unchecked every box drawn is in the warning colour with width 4. *)
Theorem box_style_follows_class pf P prev now :
  Surface.stroke_styles (fst (drawBoxes pf P prev now))
  = map (λ p, if DANGEROUS_has (class p) then "#f87171" else "#7dd3fc")%string
      P ∧
  Surface.line_widths (fst (drawBoxes pf P prev now))
  = map (λ p, if DANGEROUS_has (class p) then 4 else 2)%float P ∧
  Forall (λ c, c = "#f87171"%string)
    (Surface.stroke_styles (fst (drawBoxes pf (filtered false P) prev now))) ∧
  Forall (λ n, n = 4%float)
    (Surface.line_widths (fst (drawBoxes pf (filtered false P) prev now))).
Proof.
  assert (Hgen : ∀ Q,
    Surface.stroke_styles (fst (drawBoxes pf Q prev now))
    = map (λ p, if DANGEROUS_has (class p) then "#f87171" else "#7dd3fc")%string
        Q ∧
    Surface.line_widths (fst (drawBoxes pf Q prev now))
    = map (λ p, if DANGEROUS_has (class p) then 4 else 2)%float Q).
  { intros Q. destruct (draw_all_read pf Q) as (_ & _ & H3 & H4 & _).
    unfold drawBoxes. cbn [fst].
    unfold Surface.stroke_styles, Surface.line_widths in *.
    rewrite !omap_app, H3, H4. cbn. by rewrite !app_nil_r. }
  destruct (Hgen P) as [HP1 HP2]. destruct (Hgen (filtered false P)) as [HF1 HF2].
  rewrite HP1, HP2, HF1, HF2. split; [done|]. split; [done|].
  assert (Hd : Forall (λ p, DANGEROUS_has (class p) = true) (filtered false P)).
  { apply Forall_forall. intros p [Hp _]%list_elem_of_filter.
    by apply bool_decide_eq_true_2. }
  split; apply Forall_fmap; (eapply Forall_impl; [exact Hd|]);
    intros p Hp; cbn; by rewrite Hp.
Qed.

Lemma Prim2SF_not_nan d :
  PrimFloat.is_nan d = false → Prim2SF d ≠ S754_nan.
Proof.
  intros H. unfold Prim2SF. rewrite H.
  destruct (PrimFloat.is_zero d); [done|].
  destruct (PrimFloat.is_infinity d); [done|].
  destruct (Z.frexp d) as [r e].
  destruct (shr_fexp prec emax _ _ _) as [shr e'].
  by destruct (shr_m shr).
Qed.

(** X13. The FPS estimate never divides by less than 1: for every delta that
    is a number, max(1, delta) is at least 1, and it is delta itself when
    delta is above 1. Only a NaN delta gives a NaN divisor. *)
Theorem fps_divisor_at_least_1 d :
  PrimFloat.is_nan d = false →
  (1 <=? JS.Math_max 1 d)%float = true ∧
  ((1 <? d)%float = true → JS.Math_max 1 d = d).
Proof.
  intros Hn. split; [|apply Math_max_lt].
  unfold JS.Math_max.
  pose proof (FloatAxioms.compare_spec 1 d) as Hc.
  pose proof (FloatAxioms.leb_spec 1 d) as Hl. unfold SFleb in Hl.
  destruct (SFcompare (Prim2SF 1) (Prim2SF d)) as [c|] eqn:E.
  - rewrite Hc. destruct c; cbn; try reflexivity. exact Hl.
  - exfalso. apply (Prim2SF_not_nan d Hn).
    destruct (Prim2SF d); try done; cbn in E; by destruct s.
Qed.

Lemma fps_divisor_at_least_1_witness :
  (1 <=? JS.Math_max 1 500)%float = true ∧
  ((1 <? 500)%float = true → JS.Math_max 1 500 = 500%float).
Proof.
  apply (fps_divisor_at_least_1 500). reflexivity.
Defined.

(** X14. A stored time of zero counts as no previous call: when
    drawBoxes.prev holds 0 (or NaN), the test [!drawBoxes.prev] replaces it
    by the current time, so for a finite current time the estimate is 1000
    and the text reads ~1000.0 FPS whatever the real delta was, and the
    current time is stored. *)
Theorem stored_zero_counts_as_first_call pf preds t now :
  JS.truthy t = false → JS.is_finite now = true →
  fps (Some t) now = 1000%float ∧
  last (fst (drawBoxes pf preds (Some t) now))
  = Some (fillText "~1000.0 FPS" 16 26) ∧
  snd (drawBoxes pf preds (Some t) now) = Some now.
Proof.
  intros Ht Hfin.
  assert (Hf : fps (Some t) now = 1000%float).
  { unfold fps, prev_or_now. rewrite Ht, (sub_diag_finite now Hfin).
    vm_compute. reflexivity. }
  split; [done|]. split; [|done].
  rewrite drawBoxes_shown. unfold fps_text. rewrite Hf.
  vm_compute. reflexivity.
Qed.

Lemma stored_zero_counts_as_first_call_witness :
  fps (Some 0%float) 500 = 1000%float ∧
  last (fst (drawBoxes pf0 [knife] (Some 0%float) 500))
  = Some (fillText "~1000.0 FPS" 16 26) ∧
  snd (drawBoxes pf0 [knife] (Some 0%float) 500) = Some 500%float.
Proof.
  apply (stored_zero_counts_as_first_call pf0 [knife] 0 500); reflexivity.
Defined.
